(** * Recording / playback screen of react_native_record_example

    A shallow embedding of the two screen components of the repository:

    - [src/unnamed/part_000]: the screen with the bottom sheet and the
      500 ms duration timer (module [Sheet] below for the handlers that
      only this file has in this form);
    - [src/screens/RecordingsScreen.tsx]: the screen without the timer
      (module [RecordingsScreen]).

    [formatTime], [playRecording] and the playback listener are textually
    the same in both files and are embedded once.

    JavaScript numbers are IEEE 754 doubles. Every number the handlers
    build themselves is an integer below 2^53 (a [Date.now ()] value, a
    difference of two of them, a list length) and is embedded as the [Z]
    it equals; subtraction, [+ 1] and [%] are exact there. The argument
    of [formatTime] is an arbitrary number: its division and its printing
    are embedded with the rounding of doubles (module [Js]). *)

From Stdlib Require Import ZArith List Bool Lia Ascii String.
From Stdlib Require Import Decimal DecimalString DecimalZ DecimalN.
Import ListNotations.

Local Open Scope string_scope.
Local Open Scope Z_scope.

(* ================================================================== *)
(** ** JavaScript string helpers *)

Module Js.

(** [Number.prototype.toString] on an integer of magnitude below 2^53
    (every [Date.now ()] value and list length): its decimal digits, with
    a leading minus sign for a negative number. [numberToString] below is
    the function on every integer-valued double. *)
Definition toString (z : Z) : string :=
  NilZero.string_of_int (Z.to_int z).

(** *** Doubles, as far as [formatTime] needs them

    A positive double is [m * 2^e] with [2^52 <= m < 2^53]; the result of
    an operation is the exact result rounded to the nearest such number,
    ties to the even [m]. Neither overflow nor subnormal numbers arise in
    [n / d] for an integer-valued double [n] and [d] among 1, 60 and
    1000. *)

(** The integer nearest to [n / d], ties to even. *)
Definition roundQuot (n d : Z) : Z :=
  let q := n / d in
  let r := n mod d in
  if 2 * r <? d then q
  else if d <? 2 * r then q + 1
  else if Z.even q then q else q + 1.

(** [n / d] multiplied by [2^sh], as a fraction. *)
Definition scale (sh n d : Z) : Z * Z :=
  if 0 <=? sh then (n * 2 ^ sh, d) else (n, d * 2 ^ (- sh)).

(** The [sh] with [2^52 <= (n / d) * 2^sh < 2^53], for positive [n]
    and [d]. *)
Definition binade (n d : Z) : Z :=
  let sh := 52 - Z.log2 n + Z.log2 d in
  let (N, D) := scale sh n d in
  if 2 ^ 52 * D <=? N then sh else sh + 1.

(** The double [n / d] for positive [n] and [d], as its significand [m]
    and the shift [sh]: its value is [m / 2^sh]. *)
Definition quotient (n d : Z) : Z * Z :=
  let sh := binade n d in
  let (N, D) := scale sh n d in
  (roundQuot N D, sh).

(** [Math.floor] of the double [m / 2^sh]. *)
Definition floorScaled (m sh : Z) : Z :=
  if 0 <=? sh then m / 2 ^ sh else m * 2 ^ (- sh).

(** [Math.floor (n / d)] for an integer-valued double [n] and a positive
    integer [d]. *)
Definition floorDiv (n d : Z) : Z :=
  match n with
  | 0 => 0
  | Zpos _ => let (m, sh) := quotient n d in floorScaled m sh
  | Zneg _ => let (m, sh) := quotient (- n) d in floorScaled (- m) sh
  end.

(** The double nearest to the integer [v], which is an integer again. *)
Definition toDouble (v : Z) : Z := floorDiv v 1.

Definition digits (v : Z) : Z := Z.of_nat (String.length (toString v)).

(** The decimal number with [k] significant digits that is read back as
    the double [x] and is nearest to it, if there is one. *)
Definition candidate (x k : Z) : option Z :=
  let u := 10 ^ (digits x - k) in
  let lo := x / u * u in
  let hi := lo + u in
  match toDouble lo =? x, toDouble hi =? x with
  | true, true =>
      if x - lo <? hi - x then Some lo
      else if hi - x <? x - lo then Some hi
      else if Z.even (x / u) then Some lo else Some hi
  | true, false => Some lo
  | false, true => Some hi
  | false, false => None
  end.

(** The first candidate, for the numbers of digits [ks] in turn. *)
Fixpoint shortest (x : Z) (ks : list Z) : Z :=
  match ks with
  | [] => x
  | k :: ks' =>
      match candidate x k with
      | Some v => v
      | None => shortest x ks'
      end
  end.

Fixpoint stripZeros (fuel : nat) (v : Z) : Z :=
  match fuel with
  | O => v
  | S f => if v mod 10 =? 0 then stripZeros f (v / 10) else v
  end.

(** Exponent notation: the significant digits, a point after the first
    of them when there are more, and the decimal exponent. *)
Definition exponential (v : Z) : string :=
  let n := digits v in
  match toString (stripZeros (Z.to_nat n) v) with
  | String c EmptyString => String c ("e+" ++ toString (n - 1))
  | String c r => String c ("." ++ r ++ "e+" ++ toString (n - 1))
  | EmptyString => "e+" ++ toString (n - 1)
  end.

(** [Number.prototype.toString] on a positive integer-valued double from
    2^53 on: the shortest digits that are read back as the same double,
    followed by zeros up to 21 digits and in exponent notation beyond. *)
Definition bigToString (x : Z) : string :=
  let v := shortest x (map Z.of_nat (seq 1 17)) in
  if digits v <=? 21 then toString v else exponential v.

(** [Number.prototype.toString] on an integer-valued double. Below 2^53
    the shortest digits are the decimal digits of the integer. *)
Definition numberToString (z : Z) : string :=
  if Z.abs z <? 2 ^ 53 then toString z
  else if z <? 0 then String "-" (bigToString (- z))
  else bigToString z.

(** The filler of [padStart]: [n] characters taken from [pad] repeated
    as often as needed ([rest] is what remains of the current copy). *)
Fixpoint filler (n : nat) (pad rest : string) : string :=
  match n with
  | O => EmptyString
  | S k =>
      match rest with
      | String c r => String c (filler k pad r)
      | EmptyString =>
          match pad with
          | String c r => String c (filler k pad r)
          | EmptyString => EmptyString
          end
      end
  end.

(** [String.prototype.padStart (targetLength, padString)]. *)
Definition padStart (targetLength : nat) (padString s : string) : string :=
  if Nat.leb targetLength (String.length s) then s
  else filler (targetLength - String.length s) padString padString ++ s.

(** Truthiness of a [string | null] value: [null] and the empty string
    are falsy. *)
Definition truthy (o : option string) : bool :=
  match o with
  | Some EmptyString => false
  | Some (String _ _) => true
  | None => false
  end.

(** Truthiness of a [number | null] value: [null] and [0] are falsy. *)
Definition truthyNum (o : option Z) : bool :=
  match o with
  | Some z => negb (z =? 0)
  | None => false
  end.

(** [a === b] on [string | null] against a string. *)
Definition strictEq (o : option string) (s : string) : bool :=
  match o with
  | Some x => String.eqb x s
  | None => false
  end.

End Js.

(* ================================================================== *)
(** ** formatTime (part_000 lines 160-165, RecordingsScreen.tsx 111-116) *)

Definition formatTime (milliseconds : Z) : string :=
  let totalSeconds := Js.floorDiv milliseconds 1000 in
  let minutes := Js.floorDiv totalSeconds 60 in
  let seconds := Z.rem totalSeconds 60 in
  Js.padStart 2 "0" (Js.numberToString minutes) ++ ":" ++
  Js.padStart 2 "0" (Js.numberToString seconds).

(** *** Reading a formatted time back *)

Definition is_digit (c : ascii) : bool :=
  let n := nat_of_ascii c in (Nat.leb 48 n && Nat.leb n 57)%bool.

Fixpoint all_digits (s : string) : bool :=
  match s with
  | EmptyString => true
  | String c r => (is_digit c && all_digits r)%bool
  end.

(** Splits at the first colon. *)
Fixpoint split_colon (s : string) : option (string * string) :=
  match s with
  | EmptyString => None
  | String c r =>
      if Ascii.eqb c ":"%char then Some (EmptyString, r)
      else match split_colon r with
           | Some (a, b) => Some (String c a, b)
           | None => None
           end
  end.

(** The regular expression [^\d{2,}:\d{2}$]. *)
Definition matches_mmss (s : string) : bool :=
  match split_colon s with
  | Some (m, sec) =>
      (all_digits m && Nat.leb 2 (String.length m) &&
       all_digits sec && Nat.eqb (String.length sec) 2)%bool
  | None => false
  end.

(** Decimal reading of a digit string (leading zeros allowed). *)
Definition parseDigits (s : string) : option Z :=
  option_map Z.of_uint (NilEmpty.uint_of_string s).

(** Reads ["mm:ss"] back as the pair (minutes, seconds). *)
Definition parse_mmss (s : string) : option (Z * Z) :=
  match split_colon s with
  | Some (m, sec) =>
      match parseDigits m, parseDigits sec with
      | Some a, Some b => Some (a, b)
      | _, _ => None
      end
  | None => None
  end.

(* ================================================================== *)
(** ** Data model *)

(** [interface RecordingItem]. *)
Record RecordingItem := mkItem {
  id : string;
  name : string;
  duration : string;
  path : string;
  date : string;
  isPlaying : option bool
}.

(** What the component does to the outside, in program order: calls of
    the audio engine ([Sound.*]), of the permission API, alerts and
    console output. *)
Inductive Effect :=
| StartRecorder (recordingPath : string)
| StopRecorder
| StartPlayer (itemPath : string)
| StopPlayer
| AddPlayBackListener
| RemovePlayBackListener
| RequestMultiple
| Alert (title message : string)
| ConsoleLog (message : string)
| ConsoleError (message : string).

(** A task of [setInterval (callback, delay)]: the [startTime] its
    callback captured and its period in milliseconds. *)
Record Timer := mkTimer {
  capturedStartTime : Z;
  delay : Z
}.

(** The [useState] hooks and [timerRef] of the component, followed by
    the part of the JavaScript runtime and of the engine the handlers act
    on: the live [setInterval] tasks by handle, the next free timer
    handle, whether a playback
    listener is registered, the pending completion callback of
    [hideRecordingSheet], and the trace of effects.

    RecordingsScreen.tsx declares the first six hooks only; its handlers
    leave the other fields alone. *)
Record State := mkState {
  recordings : list RecordingItem;
  isRecording : bool;
  isLoading : bool;
  currentRecordingPath : option string;
  currentlyPlayingId : option string;
  recordingStartTime : option Z;
  isRecordingSheetVisible : bool;
  recordingDuration : string;
  timerRef : option positive;
  intervals : list (positive * Timer);
  nextHandle : positive;
  playBackListener : bool;
  sheetHidePending : bool;
  trace : list Effect
}.

(** The state of a freshly mounted component. *)
Definition init : State :=
  mkState [] false false None None None false "00:00" None [] 1%positive
          false false [].

Inductive OS := Ios | Android.

(** [Platform.OS] and the two directories of [RNFS]. *)
Record Env := mkEnv {
  platformOS : OS;
  DocumentDirectoryPath : string;
  ExternalDirectoryPath : string
}.

(** [PermissionsAndroid.RESULTS]. *)
Inductive PermissionStatus := GRANTED | DENIED | NEVER_ASK_AGAIN.

Definition isGranted (p : PermissionStatus) : bool :=
  match p with GRANTED => true | _ => false end.

(** *** State setters *)

Definition setRecordings (v : list RecordingItem) (s : State) : State :=
  mkState v (isRecording s) (isLoading s) (currentRecordingPath s)
    (currentlyPlayingId s) (recordingStartTime s) (isRecordingSheetVisible s)
    (recordingDuration s) (timerRef s) (intervals s) (nextHandle s)
    (playBackListener s) (sheetHidePending s) (trace s).

Definition setIsRecording (v : bool) (s : State) : State :=
  mkState (recordings s) v (isLoading s) (currentRecordingPath s)
    (currentlyPlayingId s) (recordingStartTime s) (isRecordingSheetVisible s)
    (recordingDuration s) (timerRef s) (intervals s) (nextHandle s)
    (playBackListener s) (sheetHidePending s) (trace s).

Definition setIsLoading (v : bool) (s : State) : State :=
  mkState (recordings s) (isRecording s) v (currentRecordingPath s)
    (currentlyPlayingId s) (recordingStartTime s) (isRecordingSheetVisible s)
    (recordingDuration s) (timerRef s) (intervals s) (nextHandle s)
    (playBackListener s) (sheetHidePending s) (trace s).

Definition setCurrentRecordingPath (v : option string) (s : State) : State :=
  mkState (recordings s) (isRecording s) (isLoading s) v
    (currentlyPlayingId s) (recordingStartTime s) (isRecordingSheetVisible s)
    (recordingDuration s) (timerRef s) (intervals s) (nextHandle s)
    (playBackListener s) (sheetHidePending s) (trace s).

Definition setCurrentlyPlayingId (v : option string) (s : State) : State :=
  mkState (recordings s) (isRecording s) (isLoading s) (currentRecordingPath s)
    v (recordingStartTime s) (isRecordingSheetVisible s)
    (recordingDuration s) (timerRef s) (intervals s) (nextHandle s)
    (playBackListener s) (sheetHidePending s) (trace s).

Definition setRecordingStartTime (v : option Z) (s : State) : State :=
  mkState (recordings s) (isRecording s) (isLoading s) (currentRecordingPath s)
    (currentlyPlayingId s) v (isRecordingSheetVisible s)
    (recordingDuration s) (timerRef s) (intervals s) (nextHandle s)
    (playBackListener s) (sheetHidePending s) (trace s).

Definition setIsRecordingSheetVisible (v : bool) (s : State) : State :=
  mkState (recordings s) (isRecording s) (isLoading s) (currentRecordingPath s)
    (currentlyPlayingId s) (recordingStartTime s) v
    (recordingDuration s) (timerRef s) (intervals s) (nextHandle s)
    (playBackListener s) (sheetHidePending s) (trace s).

Definition setRecordingDuration (v : string) (s : State) : State :=
  mkState (recordings s) (isRecording s) (isLoading s) (currentRecordingPath s)
    (currentlyPlayingId s) (recordingStartTime s) (isRecordingSheetVisible s)
    v (timerRef s) (intervals s) (nextHandle s)
    (playBackListener s) (sheetHidePending s) (trace s).

Definition setTimerRef (v : option positive) (s : State) : State :=
  mkState (recordings s) (isRecording s) (isLoading s) (currentRecordingPath s)
    (currentlyPlayingId s) (recordingStartTime s) (isRecordingSheetVisible s)
    (recordingDuration s) v (intervals s) (nextHandle s)
    (playBackListener s) (sheetHidePending s) (trace s).

Definition setIntervals (v : list (positive * Timer)) (s : State) : State :=
  mkState (recordings s) (isRecording s) (isLoading s) (currentRecordingPath s)
    (currentlyPlayingId s) (recordingStartTime s) (isRecordingSheetVisible s)
    (recordingDuration s) (timerRef s) v (nextHandle s)
    (playBackListener s) (sheetHidePending s) (trace s).

Definition setNextHandle (v : positive) (s : State) : State :=
  mkState (recordings s) (isRecording s) (isLoading s) (currentRecordingPath s)
    (currentlyPlayingId s) (recordingStartTime s) (isRecordingSheetVisible s)
    (recordingDuration s) (timerRef s) (intervals s) v
    (playBackListener s) (sheetHidePending s) (trace s).

Definition setPlayBackListener (v : bool) (s : State) : State :=
  mkState (recordings s) (isRecording s) (isLoading s) (currentRecordingPath s)
    (currentlyPlayingId s) (recordingStartTime s) (isRecordingSheetVisible s)
    (recordingDuration s) (timerRef s) (intervals s) (nextHandle s)
    v (sheetHidePending s) (trace s).

Definition setSheetHidePending (v : bool) (s : State) : State :=
  mkState (recordings s) (isRecording s) (isLoading s) (currentRecordingPath s)
    (currentlyPlayingId s) (recordingStartTime s) (isRecordingSheetVisible s)
    (recordingDuration s) (timerRef s) (intervals s) (nextHandle s)
    (playBackListener s) v (trace s).

Definition setTrace (v : list Effect) (s : State) : State :=
  mkState (recordings s) (isRecording s) (isLoading s) (currentRecordingPath s)
    (currentlyPlayingId s) (recordingStartTime s) (isRecordingSheetVisible s)
    (recordingDuration s) (timerRef s) (intervals s) (nextHandle s)
    (playBackListener s) (sheetHidePending s) v.

(* ================================================================== *)
(** ** Handler bodies as a state monad with [return] and [throw] *)

(** How a block of statements ends: it falls through with a value, it
    executes [return], or a rejected [await] throws. *)
Inductive Flow (A : Type) :=
| Normal (a : A)
| Return
| Throw.
Arguments Normal {A} a.
Arguments Return {A}.
Arguments Throw {A}.

Definition Act (A : Type) : Type := State -> State * Flow A.

Definition ret {A} (a : A) : Act A := fun s => (s, Normal a).

Definition bind {A B} (m : Act A) (k : A -> Act B) : Act B :=
  fun s =>
    match m s with
    | (s1, Normal a) => k a s1
    | (s1, Return) => (s1, Return)
    | (s1, Throw) => (s1, Throw)
    end.

Declare Scope act_scope.
Delimit Scope act_scope with act.
Notation "x <- m ;; k" := (bind m (fun x => k))
  (at level 61, m at next level, right associativity) : act_scope.
Notation "m ;; k" := (bind m (fun _ => k))
  (at level 61, right associativity) : act_scope.
Local Open Scope act_scope.

Definition return_ {A} : Act A := fun s => (s, Return).
Definition throw {A} : Act A := fun s => (s, Throw).
Definition skip : Act unit := ret tt.

(** A state update ([setX (v)], an assignment to a ref). *)
Definition modify (f : State -> State) : Act unit :=
  fun s => (f s, Normal tt).

Definition emit (e : Effect) : Act unit :=
  modify (fun s => setTrace (trace s ++ [e]) s).

(** [await call]: the call is made, then the promise resolves ([ok]) or
    rejects. *)
Definition await (e : Effect) (ok : bool) : Act unit :=
  emit e ;; if ok then skip else throw.

(** [try { body } catch (error) { handler } finally { fin }]. *)
Definition tryCatchFinally (body handler fin : Act unit) : Act unit :=
  fun s =>
    let (s1, f1) := body s in
    let (s2, f2) := match f1 with
                    | Throw => handler s1
                    | _ => (s1, f1)
                    end in
    let (s3, f3) := fin s2 in
    match f3 with
    | Normal _ => (s3, f2)
    | _ => (s3, f3)
    end.

(** The state an async handler leaves behind. *)
Definition exec (a : Act unit) (s : State) : State := fst (a s).

(** The effects emitted between two states of one run. *)
Definition emitted (s s' : State) : list Effect :=
  skipn (List.length (trace s)) (trace s').

(** An error reaches the caller or the user: the handler's promise
    rejects, or an alert is shown. *)
Definition isAlert (e : Effect) : bool :=
  match e with Alert _ _ => true | _ => false end.

Definition signalsFailure (s : State) (r : State * Flow unit) : bool :=
  match snd r with
  | Throw => true
  | _ => existsb isAlert (emitted s (fst r))
  end.

Definition isStopPlayer (e : Effect) : bool :=
  match e with StopPlayer => true | _ => false end.

Definition isStartPlayer (e : Effect) : bool :=
  match e with StartPlayer _ => true | _ => false end.

Definition count (p : Effect -> bool) (l : list Effect) : nat :=
  List.length (filter p l).

(* ================================================================== *)
(** ** The engine, the timers and the sheet *)

(** [PlayBackType], the argument of the playback listener. *)
Module PlayBackType.
Record t := mk { currentPosition : Z; duration : Z }.
End PlayBackType.

Module Sound.

Definition startRecorder (recordingPath : string) (ok : bool) : Act unit :=
  await (StartRecorder recordingPath) ok.

Definition stopRecorder (ok : bool) : Act unit := await StopRecorder ok.

Definition startPlayer (itemPath : string) (ok : bool) : Act unit :=
  await (StartPlayer itemPath) ok.

Definition stopPlayer (ok : bool) : Act unit := await StopPlayer ok.

(** [Sound.stopPlayer ()] without [await]: the promise is dropped, a
    rejection does not reach the caller. *)
Definition stopPlayer_detached : Act unit := emit StopPlayer.

Definition addPlayBackListener : Act unit :=
  emit AddPlayBackListener ;; modify (setPlayBackListener true).

Definition removePlayBackListener : Act unit :=
  emit RemovePlayBackListener ;; modify (setPlayBackListener false).

End Sound.

(** [setInterval (callback, delay)], where the callback captured
    [startTime]; returns the handle. *)
Definition setInterval (startTime delay : Z) : Act positive :=
  fun s =>
    let h := nextHandle s in
    (setNextHandle (Pos.succ h)
       (setIntervals ((h, mkTimer startTime delay) :: intervals s) s),
     Normal h).

Definition clearInterval (h : positive) : Act unit :=
  modify (fun s =>
    setIntervals (filter (fun p => negb (Pos.eqb (fst p) h)) (intervals s)) s).

(** [timerRef.current], read when the statement runs. *)
Definition readTimerRef : Act (option positive) :=
  fun s => (s, Normal (timerRef s)).

(** [showRecordingSheet] (part_000 lines 82-89); the animation itself is
    presentation only. *)
Definition showRecordingSheet : Act unit :=
  modify (setIsRecordingSheetVisible true).

(** [hideRecordingSheet] (part_000 lines 92-100): the sheet becomes
    invisible in the completion callback of the animation, see
    [sheetHidden]. *)
Definition hideRecordingSheet : Act unit :=
  modify (setSheetHidePending true).

Definition sheetHidden (s : State) : State :=
  if sheetHidePending s
  then setSheetHidePending false (setIsRecordingSheetVisible false s)
  else s.

(* ================================================================== *)
(** ** Handlers shared by the two files *)

(** [requestPermissions] (part_000 lines 56-79, RecordingsScreen.tsx
    45-68). [grants] is the answer of [PermissionsAndroid.requestMultiple]
    for RECORD_AUDIO and WRITE_EXTERNAL_STORAGE, [None] when it rejects. *)
Definition requestPermissions (env : Env)
    (grants : option (PermissionStatus * PermissionStatus)) : Act bool :=
  match platformOS env with
  | Android =>
      emit RequestMultiple ;;
      match grants with
      | Some (recordAudio, writeExternalStorage) =>
          if (isGranted recordAudio && isGranted writeExternalStorage)%bool
          then ret true
          else emit (Alert "Permissions Required"
                           "Audio recording permissions are required") ;;
               ret false
      | None =>
          emit (ConsoleError "Permission request error:") ;; ret false
      end
  | Ios => ret true
  end.

(** [playRecording] (part_000 lines 220-259, RecordingsScreen.tsx
    163-202). [c] is the render the handler closed over: the handler
    reads [currentlyPlayingId] from it. *)
Definition playRecording (c : State) (item : RecordingItem)
    (stopPlayerOk startPlayerOk : bool) : Act unit :=
  tryCatchFinally
    (modify (setIsLoading true) ;;
     (if Js.truthy (currentlyPlayingId c) then
        Sound.stopPlayer stopPlayerOk ;;
        Sound.removePlayBackListener ;;
        if Js.strictEq (currentlyPlayingId c) (id item) then
          modify (setCurrentlyPlayingId None) ;;
          modify (setIsLoading false) ;;
          return_
        else skip
      else skip) ;;
     modify (setCurrentlyPlayingId (Some (id item))) ;;
     Sound.startPlayer (path item) startPlayerOk ;;
     Sound.addPlayBackListener)
    (emit (Alert "Error" "Failed to play recording") ;;
     emit (ConsoleError "Play error:") ;;
     modify (setCurrentlyPlayingId None))
    (modify (setIsLoading false)).

(** The listener passed to [Sound.addPlayBackListener] (part_000 lines
    243-251, RecordingsScreen.tsx 186-194). *)
Definition playBackListenerCallback (e : PlayBackType.t) : Act unit :=
  if PlayBackType.currentPosition e =? PlayBackType.duration e then
    Sound.stopPlayer_detached ;;
    Sound.removePlayBackListener ;;
    modify (setCurrentlyPlayingId None)
  else skip.

(** The engine delivers a progress event: the callback runs when a
    listener is registered. *)
Definition playBackEvent (e : PlayBackType.t) (s : State) : State :=
  if playBackListener s then exec (playBackListenerCallback e) s else s.

(** A press on the row [index] of the list ([renderItem], [onPress]). *)
Definition requestTogglePlayback (index : nat)
    (stopPlayerOk startPlayerOk : bool) (s : State) : State :=
  match nth_error (recordings s) index with
  | Some item => exec (playRecording s item stopPlayerOk startPlayerOk) s
  | None => s
  end.

(** What [startRecording] reads from the outside: the permission answer,
    the successive values of [Date.now ()] and whether the engine starts. *)
Record StartInput := mkStartInput {
  grants : option (PermissionStatus * PermissionStatus);
  timestamp : Z;
  startRecorderOk : bool;
  nowAfterStart : Z;
  startTime : Z
}.

(** What [stopRecording] reads from the outside: whether the engine
    stops, [Date.now ()] for the duration (RecordingsScreen.tsx only) and
    for the id, and [new Date ().toLocaleString ()]. *)
Record StopInput := mkStopInput {
  stopRecorderOk : bool;
  nowDuration : Z;
  now : Z;
  dateText : string
}.

Definition recordingPathOf (env : Env) (timestamp : Z) : string :=
  (match platformOS env with
   | Ios => DocumentDirectoryPath env
   | Android => ExternalDirectoryPath env
   end) ++ "/recording_" ++ Js.toString timestamp ++ ".m4a".

(** The value of a [string | null] the guard has narrowed to [string]. *)
Definition narrowed (o : option string) : string :=
  match o with Some p => p | None => EmptyString end.

(* ================================================================== *)
(** ** src/unnamed/part_000: the screen with sheet and timer *)

Module Sheet.

(** The [try] statement of [startRecording] (lines 107-156). The pulse
    animation it starts last is presentation only and left out. *)
Definition startRecordingTry (env : Env) (i : StartInput) : Act unit :=
  tryCatchFinally
    (modify (setIsLoading true) ;;
     let recordingPath := recordingPathOf env (timestamp i) in
     emit (ConsoleLog "Recording to path:") ;;
     Sound.startRecorder recordingPath (startRecorderOk i) ;;
     modify (setIsRecording true) ;;
     modify (setCurrentRecordingPath (Some recordingPath)) ;;
     modify (setRecordingStartTime (Some (nowAfterStart i))) ;;
     modify (setRecordingDuration "00:00") ;;
     current <- readTimerRef ;;
     match current with
     | Some h => clearInterval h
     | None => skip
     end ;;
     modify (setRecordingStartTime (Some (startTime i))) ;;
     h <- setInterval (startTime i) 500 ;;
     modify (setTimerRef (Some h)) ;;
     showRecordingSheet)
    (emit (Alert "Error" "Failed to start recording") ;;
     emit (ConsoleError "Recording error:"))
    (modify (setIsLoading false)).

(** [startRecording] (lines 103-157). *)
Definition startRecording (env : Env) (i : StartInput) : Act unit :=
  hasPermissions <- requestPermissions env (grants i) ;;
  if negb hasPermissions then return_ else startRecordingTry env i.

(** The record [stopRecording] builds (lines 200-207); its duration is
    [finalDuration], the [recordingDuration] of the render (lines 177
    and 196). *)
Definition newRecording (c : State) (o : StopInput) : RecordingItem :=
  mkItem (Js.toString (now o))
         ("Recording " ++
          Js.toString (Z.of_nat (List.length (recordings c)) + 1))
         (recordingDuration c)
         (narrowed (currentRecordingPath c))
         (dateText o)
         (Some false).

(** [stopRecording] (lines 168-217). [c] is the render the handler
    closed over: [isRecording], [currentRecordingPath],
    [recordingDuration] and [recordings] are read from it, while
    [timerRef.current] is read when the statement runs. The animation
    of the button is presentation only and left out. *)
Definition stopRecording (c : State) (o : StopInput) : Act unit :=
  if (negb (isRecording c) || negb (Js.truthy (currentRecordingPath c)))%bool
  then return_ else
  tryCatchFinally
    (modify (setIsLoading true) ;;
     Sound.stopRecorder (stopRecorderOk o) ;;
     modify (setIsRecording false) ;;
     current <- readTimerRef ;;
     match current with
     | Some h => clearInterval h ;; modify (setTimerRef None)
     | None => skip
     end ;;
     hideRecordingSheet ;;
     modify (setRecordingStartTime None) ;;
     modify (setRecordings (recordings c ++ [newRecording c o])) ;;
     modify (setCurrentRecordingPath None))
    (emit (Alert "Error" "Failed to stop recording") ;;
     emit (ConsoleError "Stop recording error:"))
    (modify (setIsLoading false)).

(** The interval callback (lines 141-144) of the task [h] runs at
    [Date.now () = now]. *)
Definition tick (h : positive) (now : Z) (s : State) : State :=
  match find (fun p => Pos.eqb (fst p) h) (intervals s) with
  | Some (_, timer) =>
      setRecordingDuration (formatTime (now - capturedStartTime timer)) s
  | None => s
  end.

(** The callback of the task [timerRef] points to runs at each time of
    [times] in turn. *)
Definition ticks (times : list Z) (s : State) : State :=
  fold_left (fun st t =>
               match timerRef st with
               | Some h => tick h t st
               | None => st
               end) times s.

(** The values of [Date.now ()] at the runs of the callback of an
    interval created at [created] with period [period], up to [stopTime],
    when the timer fires on schedule: [created + period],
    [created + 2 * period], and so on. *)
Definition dueTimes (created period stopTime : Z) : list Z :=
  map (fun k => created + period * Z.of_nat k)
      (seq 1 (Z.to_nat ((stopTime - created) / period))).

(** The ticks of the current timer up to [stopTime] when it fires on
    schedule. The interval is created in the statement after
    [const startTime = Date.now ()] (lines 138-141); its creation time is
    taken to be that [startTime]. *)
Definition scheduledTicks (s : State) (stopTime : Z) : list Z :=
  match timerRef s with
  | Some h =>
      match find (fun p => Pos.eqb (fst p) h) (intervals s) with
      | Some (_, timer) =>
          dueTimes (capturedStartTime timer) (delay timer) stopTime
      | None => []
      end
  | None => []
  end.

(** The round button (lines 416-420): [onPress] is [stopRecording]
    while recording and [startRecording] otherwise; the button is
    disabled while [isLoading]. *)
Definition requestToggleRecording (env : Env) (i : StartInput)
    (o : StopInput) (s : State) : State :=
  if isLoading s then s
  else if isRecording s then exec (stopRecording s o) s
  else exec (startRecording env i) s.

(** The stop button of the sheet (lines 446-451). *)
Definition pressSheetStop (o : StopInput) (s : State) : State :=
  if isRecordingSheetVisible s then exec (stopRecording s o) s else s.

Inductive Event :=
| ToggleRecording (i : StartInput) (o : StopInput)
| SheetStop (o : StopInput)
| TogglePlayback (index : nat) (stopPlayerOk startPlayerOk : bool)
| Tick (h : positive) (now : Z)
| PlayBack (e : PlayBackType.t)
| SheetHidden.

(** One event, with its handler run to completion on the render that is
    current when the event arrives. Calls that overlap (a second press
    before the first call has been rendered) are not events of [step];
    they are written with the closure argument of the handlers. *)
Definition step (env : Env) (s : State) (ev : Event) : State :=
  match ev with
  | ToggleRecording i o => requestToggleRecording env i o s
  | SheetStop o => pressSheetStop o s
  | TogglePlayback index a b => requestTogglePlayback index a b s
  | Tick h now => tick h now s
  | PlayBack e => playBackEvent e s
  | SheetHidden => sheetHidden s
  end.

Definition run (env : Env) (evs : list Event) (s : State) : State :=
  fold_left (step env) evs s.

End Sheet.

(* ================================================================== *)
(** ** src/screens/RecordingsScreen.tsx: the screen without timer *)

Module RecordingsScreen.

(** The [try] statement of [startRecording] (lines 75-107). *)
Definition startRecordingTry (env : Env) (i : StartInput) : Act unit :=
  tryCatchFinally
    (modify (setIsLoading true) ;;
     let recordingPath := recordingPathOf env (timestamp i) in
     emit (ConsoleLog "Recording to path:") ;;
     Sound.startRecorder recordingPath (startRecorderOk i) ;;
     modify (setIsRecording true) ;;
     modify (setCurrentRecordingPath (Some recordingPath)) ;;
     modify (setRecordingStartTime (Some (nowAfterStart i))))
    (emit (Alert "Error" "Failed to start recording") ;;
     emit (ConsoleError "Recording error:"))
    (modify (setIsLoading false)).

(** [startRecording] (lines 71-108). *)
Definition startRecording (env : Env) (i : StartInput) : Act unit :=
  hasPermissions <- requestPermissions env (grants i) ;;
  if negb hasPermissions then return_ else startRecordingTry env i.

(** The duration [stopRecording] computes (lines 134-140). *)
Definition durationAtStop (c : State) (o : StopInput) : string :=
  if Js.truthyNum (recordingStartTime c)
  then match recordingStartTime c with
       | Some t => formatTime (nowDuration o - t)
       | None => "00:00"
       end
  else "00:00".

(** The record [stopRecording] builds (lines 143-150). *)
Definition newRecording (c : State) (o : StopInput) : RecordingItem :=
  mkItem (Js.toString (now o))
         ("Recording " ++
          Js.toString (Z.of_nat (List.length (recordings c)) + 1))
         (durationAtStop c o)
         (narrowed (currentRecordingPath c))
         (dateText o)
         (Some false).

(** [stopRecording] (lines 119-160). *)
Definition stopRecording (c : State) (o : StopInput) : Act unit :=
  if (negb (isRecording c) || negb (Js.truthy (currentRecordingPath c)))%bool
  then return_ else
  tryCatchFinally
    (modify (setIsLoading true) ;;
     Sound.stopRecorder (stopRecorderOk o) ;;
     modify (setIsRecording false) ;;
     (if Js.truthyNum (recordingStartTime c)
      then modify (setRecordingStartTime None)
      else skip) ;;
     modify (setRecordings (recordings c ++ [newRecording c o])) ;;
     modify (setCurrentRecordingPath None))
    (emit (Alert "Error" "Failed to stop recording") ;;
     emit (ConsoleError "Stop recording error:"))
    (modify (setIsLoading false)).

(** The round button (lines 349-353). *)
Definition requestToggleRecording (env : Env) (i : StartInput)
    (o : StopInput) (s : State) : State :=
  if isLoading s then s
  else if isRecording s then exec (stopRecording s o) s
  else exec (startRecording env i) s.

Inductive Event :=
| ToggleRecording (i : StartInput) (o : StopInput)
| TogglePlayback (index : nat) (stopPlayerOk startPlayerOk : bool)
| PlayBack (e : PlayBackType.t).

(** One event, with its handler run to completion on the render that is
    current when the event arrives (see [Sheet.step]). *)
Definition step (env : Env) (s : State) (ev : Event) : State :=
  match ev with
  | ToggleRecording i o => requestToggleRecording env i o s
  | TogglePlayback index a b => requestTogglePlayback index a b s
  | PlayBack e => playBackEvent e s
  end.

Definition run (env : Env) (evs : list Event) (s : State) : State :=
  fold_left (step env) evs s.

End RecordingsScreen.
(* ================================================================== *)
(** ** Properties of states *)

(** The recording session and the playback session are not both
    active. *)
Definition exclusive (s : State) : Prop :=
  ~ (isRecording s = true /\ currentlyPlayingId s <> None).

(** The answer of [requestPermissions], without its effects. *)
Definition permitted (env : Env)
    (g : option (PermissionStatus * PermissionStatus)) : bool :=
  match platformOS env, g with
  | Ios, _ => true
  | Android, Some (recordAudio, writeExternalStorage) =>
      (isGranted recordAudio && isGranted writeExternalStorage)%bool
  | Android, None => false
  end.

(** The duration timer lives exactly as long as [isRecording]: one
    interval task, the one [timerRef] holds, while recording, and none
    otherwise. *)
Definition timer_inv (s : State) : Prop :=
  if isRecording s
  then exists h st, timerRef s = Some h /\ intervals s = [(h, st)]
  else timerRef s = None /\ intervals s = [].

(** *** Sample data *)

Module Sample.

Definition env : Env := mkEnv Ios "/var/documents" "/storage/files".

Definition start (t : Z) : StartInput :=
mkStartInput None t true (t + 40) (t + 41).

Definition stop (ok : bool) (t : Z) : StopInput :=
mkStopInput ok t (t + 1) "11/14/2023, 10:13:24 PM".

(** Record a clip, play it, and press the record button again. *)
Definition record_then_play_then_record : list Sheet.Event :=
[ Sheet.ToggleRecording (start 1700000000000) (stop true 0);
  Sheet.ToggleRecording (start 0) (stop true 1700000004000);
  Sheet.TogglePlayback 0 true true;
  Sheet.ToggleRecording (start 1700000009000) (stop true 0) ].

(** Record a clip, start a second recording, and press play on the first
  clip. *)
Definition record_then_record_then_play : list Sheet.Event :=
[ Sheet.ToggleRecording (start 1700000000000) (stop true 0);
  Sheet.ToggleRecording (start 0) (stop true 1700000004000);
  Sheet.ToggleRecording (start 1700000009000) (stop true 0);
  Sheet.TogglePlayback 0 true true ].

(** Start a recording; the engine then fails to stop it. *)
Definition record_then_failed_stop : list Sheet.Event :=
[ Sheet.ToggleRecording (start 1700000000000) (stop true 0);
  Sheet.ToggleRecording (start 0) (stop false 1700000004000) ].

(** The render of RecordingsScreen.tsx after a recording started at
  1700000000040. *)
Definition recording_render : State :=
exec (RecordingsScreen.startRecording env (start 1700000000000)) init.

End Sample.

(* ================================================================== *)
(** ** What one event can do to the two sessions *)

Definition sameRecording (s s' : State) : Prop :=
  recordings s' = recordings s /\
  isRecording s' = isRecording s /\
  currentRecordingPath s' = currentRecordingPath s.

Definition samePlayback (s s' : State) : Prop :=
  currentlyPlayingId s' = currentlyPlayingId s /\
  playBackListener s' = playBackListener s.

(** [isLoading] is not left set. *)
Definition settles (s s' : State) : Prop :=
  isLoading s = false -> isLoading s' = false.

(** The outcomes of a handler or callback, seen from the hooks the two
    sessions consist of: nothing happens to them, a recording starts, a
    recording stops and its record is appended, the playback ends, or the
    playback of a listed record starts. *)
Inductive Change (s s' : State) : Prop :=
| Quiet :
    sameRecording s s' -> samePlayback s s' -> settles s s' -> Change s s'
| Started :
    recordings s' = recordings s ->
    isRecording s = false -> isRecording s' = true ->
    Js.truthy (currentRecordingPath s') = true ->
    samePlayback s s' -> isLoading s' = false -> Change s s'
| Stopped (r : RecordingItem) :
    isRecording s = true ->
    recordings s' = (recordings s ++ [r])%list ->
    name r = "Recording " ++
             Js.toString (Z.of_nat (S (List.length (recordings s)))) ->
    id r <> EmptyString -> path r <> EmptyString ->
    isRecording s' = false -> currentRecordingPath s' = None ->
    samePlayback s s' -> isLoading s' = false -> Change s s'
| PlaybackOff :
    sameRecording s s' -> currentlyPlayingId s' = None ->
    settles s s' -> Change s s'
| PlaybackOn (item : RecordingItem) :
    sameRecording s s' -> In item (recordings s) ->
    currentlyPlayingId s' = Some (id item) -> playBackListener s' = true ->
    isLoading s' = false -> Change s s'.

(** *** Invariants of the reachable states *)

(** While recording there is a destination path, otherwise there is
    none. *)
Definition recording_inv (s : State) : Prop :=
  if isRecording s then Js.truthy (currentRecordingPath s) = true
  else currentRecordingPath s = None.

(** The record at index [k] is named ["Recording k+1"] and has a
    non-empty id and path. *)
Definition records_inv (s : State) : Prop :=
  forall k r, nth_error (recordings s) k = Some r ->
    name r = "Recording " ++ Js.toString (Z.of_nat (S k)) /\
    id r <> EmptyString /\ path r <> EmptyString.

(** *** What a row of the list shows *)

Inductive Icon := StopIcon | PlayIcon.

(** The icon of the play button of a row ([renderItem], part_000 lines
    357-361, RecordingsScreen.tsx 294-298). *)
Definition playButtonIcon (s : State) (item : RecordingItem) : Icon :=
  if Js.strictEq (currentlyPlayingId s) (id item) then StopIcon else PlayIcon.

Definition showsStop (s : State) (item : RecordingItem) : bool :=
  match playButtonIcon s item with StopIcon => true | PlayIcon => false end.

(* ================================================================== *)
(** ** Facts about decimal printing *)

Section DecimalFacts.

Lemma string_of_uint_digits (d : uint) :
  all_digits (NilEmpty.string_of_uint d) = true.
Proof. induction d; simpl; auto. Qed.

Lemma toString_nonneg (z : Z) :
  0 <= z ->
  exists d, d <> Nil /\ Js.toString z = NilEmpty.string_of_uint d /\
            Z.of_uint d = z.
Proof.
  intros Hz. unfold Js.toString. destruct z as [|p|p]; [| |lia].
  - exists (D0 Nil). repeat split; discriminate.
  - exists (Pos.to_uint p). split; [apply DecimalPos.Unsigned.to_uint_nonnil|].
    split.
    + simpl. unfold NilZero.string_of_uint.
      destruct (Pos.to_uint p) eqn:E; try reflexivity.
      exfalso. exact (DecimalPos.Unsigned.to_uint_nonnil p E).
    + change (Z.of_uint (Pos.to_uint p)) with (Z.of_int (Z.to_int (Z.pos p))).
      apply DecimalZ.of_to.
Qed.

Lemma string_of_uint_length (d : uint) :
  d <> Nil -> (1 <= String.length (NilEmpty.string_of_uint d))%nat.
Proof. destruct d; simpl; intros; try lia; congruence. Qed.

Lemma parseDigits_print (d : uint) :
  parseDigits (NilEmpty.string_of_uint d) = Some (Z.of_uint d).
Proof. unfold parseDigits. now rewrite NilEmpty.usu. Qed.

Lemma parseDigits_zero_print (d : uint) :
  parseDigits ("0" ++ NilEmpty.string_of_uint d) = Some (Z.of_uint d).
Proof.
  unfold parseDigits.
  change ("0" ++ NilEmpty.string_of_uint d)
    with (NilEmpty.string_of_uint (D0 d)).
  rewrite NilEmpty.usu. reflexivity.
Qed.

End DecimalFacts.

Section PadFacts.

(** The three shapes in which [padStart 2 "0"] leaves a non-empty
    string of digits. *)
Lemma pad2_cases (s : string) :
  (1 <= String.length s)%nat ->
  (Js.padStart 2 "0" s = s /\ (2 <= String.length s)%nat) \/
  (Js.padStart 2 "0" s = "0" ++ s /\ String.length s = 1%nat).
Proof.
  intros H. unfold Js.padStart.
  destruct s as [|a [|b r]]; simpl in *; [lia | right | left];
    (split; [reflexivity | lia]).
Qed.

Lemma pad2_print (d : uint) :
  d <> Nil ->
  let p := Js.padStart 2 "0" (NilEmpty.string_of_uint d) in
  all_digits p = true /\ (2 <= String.length p)%nat /\
  parseDigits p = Some (Z.of_uint d).
Proof.
  intros Hd p. subst p.
  destruct (pad2_cases _ (string_of_uint_length d Hd)) as [[-> Hl]|[-> Hl]].
  - repeat split; auto using string_of_uint_digits, parseDigits_print.
  - repeat split.
    + simpl. apply string_of_uint_digits.
    + simpl. lia.
    + apply parseDigits_zero_print.
Qed.

Lemma pad2_small (n : nat) :
  (n < 60)%nat ->
  String.length (Js.padStart 2 "0" (Js.toString (Z.of_nat n))) = 2%nat.
Proof.
  intros H. do 60 (destruct n as [|n]; [reflexivity|]). lia.
Qed.

Lemma digit_not_colon (c : ascii) :
  is_digit c = true -> Ascii.eqb c ":"%char = false.
Proof.
  intros H. destruct (Ascii.eqb_spec c ":"%char) as [->|]; [|reflexivity].
  discriminate H.
Qed.

Lemma split_colon_digits (m rest : string) :
  all_digits m = true -> split_colon (m ++ ":" ++ rest) = Some (m, rest).
Proof.
  induction m as [|c m IH]; intros H; [reflexivity|].
  apply andb_prop in H as [Hc Hm].
  change (split_colon ((String c m) ++ ":" ++ rest))
    with (if Ascii.eqb c ":"%char then Some (EmptyString, m ++ ":" ++ rest)
          else match split_colon (m ++ ":" ++ rest) with
               | Some (a, b) => Some (String c a, b)
               | None => None
               end).
  now rewrite (digit_not_colon c Hc), (IH Hm).
Qed.

End PadFacts.

(* ================================================================== *)
(** ** Doubles: the quotient in the range of the safe integers *)

Lemma scale_cases (sh n d : Z) :
  (0 <= sh /\ Js.scale sh n d = (n * 2 ^ sh, d)) \/
  (sh < 0 /\ Js.scale sh n d = (n, d * 2 ^ (- sh))).
Proof.
  unfold Js.scale. destruct (Z.leb_spec 0 sh); [left | right]; split; auto.
Qed.

Lemma binade_lower (n d : Z) :
  0 < n -> 0 < d ->
  exists N D, Js.scale (Js.binade n d) n d = (N, D) /\ 0 < D /\ 2 ^ 52 * D <= N.
Proof.
  intros Hn Hd.
  pose proof (Z.log2_spec n Hn) as [Ln Un].
  pose proof (Z.log2_spec d Hd) as [Ld Ud].
  pose proof (Z.log2_nonneg n) as Nn. pose proof (Z.log2_nonneg d) as Nd.
  set (ln := Z.log2 n) in *. set (ld := Z.log2 d) in *.
  unfold Js.binade. fold ln ld. set (sh := 52 - ln + ld).
  destruct (Js.scale sh n d) as [N0 D0] eqn:E0.
  destruct (Z.leb_spec (2 ^ 52 * D0) N0) as [Le|Gt].
  - exists N0, D0. split; [exact E0|]. split; [|exact Le].
    destruct (scale_cases sh n d) as [[H E]|[H E]]; rewrite E in E0;
      injection E0 as <- <-; [lia|].
    apply Z.mul_pos_pos; [lia|]. apply Z.pow_pos_nonneg; lia.
  - destruct (scale_cases (sh + 1) n d) as [[H E]|[H E]]; rewrite E.
    + exists (n * 2 ^ (sh + 1)), d. split; [reflexivity|]. split; [lia|].
      (* 2^52 * d < 2^(53+ld) <= n * 2^(sh+1) *)
      assert (P : 2 ^ (ln + (sh + 1)) = 2 ^ 52 * 2 ^ (ld + 1)).
      { rewrite <- Z.pow_add_r by lia. f_equal. lia. }
      assert (Q : 2 ^ (ln + (sh + 1)) = 2 ^ ln * 2 ^ (sh + 1))
        by (apply Z.pow_add_r; lia).
      assert (0 < 2 ^ (sh + 1)) by (apply Z.pow_pos_nonneg; lia).
      nia.
    + exists n, (d * 2 ^ (- (sh + 1))). split; [reflexivity|].
      assert (0 < 2 ^ (- (sh + 1))) by (apply Z.pow_pos_nonneg; lia).
      split; [nia|].
      (* 2^52 * d * 2^(-sh-1) < 2^52 * 2^(ld+1) * 2^(ln - ld - 53) = 2^ln <= n *)
      assert (P : 2 ^ 52 * (2 ^ (ld + 1) * 2 ^ (- (sh + 1))) = 2 ^ ln).
      { rewrite <- !Z.pow_add_r by lia. f_equal. lia. }
      nia.
Qed.

Lemma roundQuot_bounds (n d : Z) :
  0 < d ->
  n / d <= Js.roundQuot n d <= n / d + 1 /\
  (2 * (n mod d) < d -> Js.roundQuot n d = n / d).
Proof.
  intros Hd. unfold Js.roundQuot. cbv zeta.
  destruct (Z.ltb_spec (2 * (n mod d)) d).
  - split; [lia | reflexivity].
  - split; [|lia].
    destruct (d <? 2 * (n mod d)); [lia|]. destruct (Z.even (n / d)); lia.
Qed.

Lemma floorDiv_pos (n d : Z) :
  0 < n -> Js.floorDiv n d = let (m, sh) := Js.quotient n d in Js.floorScaled m sh.
Proof. destruct n; try lia. reflexivity. Qed.

Lemma floorDiv_neg (n d : Z) :
  n < 0 ->
  Js.floorDiv n d = let (m, sh) := Js.quotient (- n) d in Js.floorScaled (- m) sh.
Proof. destruct n; try lia. reflexivity. Qed.

(** In the range of the safe integers the double Js.quotient, floored, is the
    integer Js.quotient. *)
Lemma floorDiv_safe (n d : Z) :
  0 <= n < 2 ^ 53 -> 0 < d -> Js.floorDiv n d = n / d.
Proof.
  intros [Hn Hb] Hd.
  destruct (Z.eq_dec n 0) as [->|Nz]; [now rewrite Z.div_0_l by lia|].
  rewrite floorDiv_pos by lia. unfold Js.quotient.
  destruct (binade_lower n d) as (N & D & E & HD & Low); [lia | lia |].
  rewrite E. set (sh := Js.binade n d) in *.
  assert (C : 2 ^ 53 = 2 * 2 ^ 52) by reflexivity. rewrite C in Hb.
  assert (Hc : 0 < 2 ^ 52) by reflexivity.
  set (c := 2 ^ 52) in *. clearbody c.
  destruct (scale_cases sh n d) as [[Hs Es]|[Hs Es]];
    rewrite Es in E; injection E as <- <-.
  2:{ exfalso. assert (2 <= 2 ^ (- sh)).
      { change 2 with (2 ^ 1) at 1. apply Z.pow_le_mono_r; lia. }
      assert (c * (d * 2) <= c * (d * 2 ^ (- sh))).
      { apply Z.mul_le_mono_nonneg_l; [lia|].
        apply Z.mul_le_mono_nonneg_l; lia. }
      assert (n < c * (d * 2)) by nia. lia. }
  unfold Js.floorScaled. destruct (Z.leb_spec 0 sh); [|lia].
  set (q := 2 ^ sh) in *.
  assert (Hq : 0 < q) by (apply Z.pow_pos_nonneg; lia). clearbody q.
  assert (Hdq : d < 2 * q).
  { assert (n * q < 2 * c * q) by (apply Z.mul_lt_mono_pos_r; lia).
    destruct (Z.lt_ge_cases d (2 * q)) as [L|G]; [exact L | exfalso].
    assert (c * (2 * q) <= c * d) by (apply Z.mul_le_mono_nonneg_l; lia).
    lia. }
  destruct (roundQuot_bounds (n * q) d Hd) as [[Lo Hi] Ex].
  pose proof (Z.div_mod n d ltac:(lia)) as Dn.
  pose proof (Z.mod_pos_bound n d Hd) as Bn.
  pose proof (Z.div_mod (n * q) d ltac:(lia)) as Dq.
  pose proof (Z.mod_pos_bound (n * q) d Hd) as Bq.
  set (k := n / d) in *. set (j := n mod d) in *.
  set (a := n * q / d) in *. set (r := (n * q) mod d) in *.
  clearbody k j a r.
  assert (A1 : k * q <= a) by nia.
  assert (A2 : a <= k * q + q - 1) by nia.
  assert (M : k * q <= Js.roundQuot (n * q) d < (k + 1) * q).
  { split; [lia|].
    destruct (Z.eq_dec a (k * q + q - 1)) as [Ea|Na]; [|lia].
    rewrite Ex; [lia|]. nia. }
  symmetry. apply Z.div_unique with (r := Js.roundQuot (n * q) d - k * q); lia.
Qed.

Lemma floorDiv_negative (n d : Z) : n < 0 -> 0 < d -> Js.floorDiv n d < 0.
Proof.
  intros Hn Hd. rewrite floorDiv_neg by lia. unfold Js.quotient.
  destruct (binade_lower (- n) d) as (N & D & E & HD & Low); [lia | lia |].
  rewrite E.
  destruct (roundQuot_bounds N D HD) as [[Lo _] _].
  assert (2 ^ 52 <= N / D) by (apply Z.div_le_lower_bound; lia).
  assert (M : 0 < Js.roundQuot N D) by lia.
  unfold Js.floorScaled. destruct (Z.leb_spec 0 (Js.binade (- n) d)).
  - apply Z.div_lt_upper_bound; [apply Z.pow_pos_nonneg; lia | lia].
  - assert (0 < 2 ^ (- Js.binade (- n) d)) by (apply Z.pow_pos_nonneg; lia).
    nia.
Qed.

Lemma numberToString_safe (z : Z) :
  Z.abs z < 2 ^ 53 -> Js.numberToString z = Js.toString z.
Proof.
  intros H. unfold Js.numberToString.
  destruct (Z.ltb_spec (Z.abs z) (2 ^ 53)); [reflexivity | lia].
Qed.

(** Below 2^53 [formatTime] computes with the integer quotients. *)
Lemma formatTime_safe (ms : Z) :
  0 <= ms < 2 ^ 53 ->
  formatTime ms =
  Js.padStart 2 "0" (Js.toString (ms / 1000 / 60)) ++ ":" ++
  Js.padStart 2 "0" (Js.toString ((ms / 1000) mod 60)).
Proof.
  intros H.
  assert (Hts : 0 <= ms / 1000 < 2 ^ 53).
  { split; [apply Z.div_pos; lia|].
    apply Z.le_lt_trans with ms; [apply Z.div_le_upper_bound; lia | lia]. }
  assert (Hmin : 0 <= ms / 1000 / 60 < 2 ^ 53).
  { split; [apply Z.div_pos; lia|].
    apply Z.le_lt_trans with (ms / 1000);
      [apply Z.div_le_upper_bound; lia | lia]. }
  assert (Hsec : 0 <= (ms / 1000) mod 60 < 60) by (apply Z.mod_pos_bound; lia).
  unfold formatTime. cbv zeta.
  rewrite (floorDiv_safe ms 1000) by lia.
  rewrite (floorDiv_safe (ms / 1000) 60) by lia.
  rewrite Z.rem_mod_nonneg by lia.
  rewrite !numberToString_safe; [reflexivity | |].
  - assert (60 < 2 ^ 53) by reflexivity. lia.
  - lia.
Qed.

(* ================================================================== *)
(** ** TimeFormatter *)

(** C9 as stated does not hold for every non-negative integer: the
    function computes on doubles. At 2^60 the quotient by 1000 is rounded
    up to the next integer, so the text reads back as one second more
    than [floor (ms / 1000)]; at 6e25 (the double 60000000000000001140850688)
    the minutes are printed in exponent notation and the text does not
    match [^\d{2,}:\d{2}$]. *)
Lemma formatTime_large_counterexample :
  formatTime (2 ^ 60) = "19215358410114:07" /\
  parse_mmss (formatTime (2 ^ 60)) = Some (19215358410114, 7) /\
  19215358410114 * 60 + 7 = 2 ^ 60 / 1000 + 1 /\
  Js.toDouble (6 * 10 ^ 25) = 60000000000000001140850688 /\
  formatTime 60000000000000001140850688 = "1e+21:00" /\
  matches_mmss (formatTime 60000000000000001140850688) = false /\
  ~ (forall ms, 0 <= ms ->
       matches_mmss (formatTime ms) = true /\
       exists m sec, parse_mmss (formatTime ms) = Some (m, sec) /\
                     m * 60 + sec = ms / 1000).
Proof.
  assert (A : parse_mmss (formatTime (2 ^ 60)) = Some (19215358410114, 7))
    by (vm_compute; reflexivity).
  do 6 (split; [vm_compute; reflexivity|]).
  intros C. destruct (C (2 ^ 60) ltac:(lia)) as (_ & m & sec & P & E).
  rewrite A in P. injection P as <- <-. vm_compute in E. discriminate E.
Qed.

(** C9, amended. For every non-negative integer [ms] below 2^53 (the
    integers a double holds exactly), [formatTime ms] is the minutes
    [floor (floor (ms/1000) / 60)] and the seconds [floor (ms/1000) mod 60],
    each padded with zeros to width 2 and joined by a colon; the minutes
    are not clamped (3600000 ms print as 60:00); the result matches
    [^\d{2,}:\d{2}$], and reading it back gives these minutes and
    seconds, with [minutes * 60 + seconds = floor (ms/1000)]. In
    particular 0, 61000 and 600000 print as 00:00, 01:01 and 10:00. *)
Theorem formatTime_spec (ms : Z) :
  0 <= ms -> ms < 2 ^ 53 ->
  let minutes := ms / 1000 / 60 in
  let seconds := (ms / 1000) mod 60 in
  formatTime ms = Js.padStart 2 "0" (Js.toString minutes) ++ ":" ++
                  Js.padStart 2 "0" (Js.toString seconds) /\
  matches_mmss (formatTime ms) = true /\
  parse_mmss (formatTime ms) = Some (minutes, seconds) /\
  minutes * 60 + seconds = ms / 1000 /\
  formatTime 0 = "00:00" /\
  formatTime 61000 = "01:01" /\
  formatTime 600000 = "10:00" /\
  formatTime 3600000 = "60:00".
Proof.
  intros Hms Hb minutes seconds.
  assert (Hts : 0 <= ms / 1000) by (apply Z.div_pos; lia).
  assert (Hmin : 0 <= minutes) by (apply Z.div_pos; lia).
  assert (Hsec : 0 <= seconds < 60) by (apply Z.mod_pos_bound; lia).
  pose proof (formatTime_safe ms (conj Hms Hb)) as Hfmt.
  fold minutes seconds in Hfmt.
  destruct (toString_nonneg minutes Hmin) as (dm & Hdm & Em & Vm).
  destruct (toString_nonneg seconds (proj1 Hsec)) as (ds & Hds & Es & Vs).
  destruct (pad2_print dm Hdm) as (Am & Lm & Pm).
  destruct (pad2_print ds Hds) as (As & _ & Ps).
  assert (Ls : String.length (Js.padStart 2 "0" (Js.toString seconds)) = 2%nat).
  { replace seconds with (Z.of_nat (Z.to_nat seconds)) by lia.
    apply pad2_small. lia. }
  rewrite <- Em in Am, Lm, Pm. rewrite <- Es in As, Ps.
  split; [exact Hfmt|].
  split.
  { rewrite Hfmt. unfold matches_mmss.
    rewrite (split_colon_digits _ _ Am), Am, As, Ls.
    apply Nat.leb_le in Lm. now rewrite Lm. }
  split.
  { rewrite Hfmt. unfold parse_mmss.
    rewrite (split_colon_digits _ _ Am), Pm, Ps. now rewrite Vm, Vs. }
  split.
  { subst minutes seconds. pose proof (Z.div_mod (ms / 1000) 60). lia. }
  repeat split; vm_compute; reflexivity.
Qed.

Lemma formatTime_spec_witness :
  0 <= 125999 /\ 125999 < 2 ^ 53 /\ formatTime 125999 = "02:05" /\
  parse_mmss (formatTime 125999) = Some (2, 5).
Proof.
  split; [lia|]. split; [reflexivity|].
  destruct (formatTime_spec 125999 ltac:(lia) eq_refl) as (H & _ & P & _).
  split; [exact H | exact P].
Defined.

(* ================================================================== *)
(** ** Traces *)

Lemma emitted_app (s s' : State) (l : list Effect) :
  trace s' = (trace s ++ l)%list -> emitted s s' = l.
Proof.
  unfold emitted. intros ->. induction (trace s); simpl; auto.
Qed.

Lemma emitted_refl (s : State) : emitted s s = [].
Proof. apply emitted_app. now rewrite app_nil_r. Qed.

(** Unfolds a handler down to the state it computes. *)
Ltac run_handler :=
  cbv [exec playRecording playBackListenerCallback tryCatchFinally bind ret
       Sheet.startRecording Sheet.startRecordingTry Sheet.stopRecording
       RecordingsScreen.startRecording RecordingsScreen.startRecordingTry
       RecordingsScreen.stopRecording
       skip return_ throw modify emit await
       Sound.startRecorder Sound.stopRecorder Sound.startPlayer
       Sound.stopPlayer Sound.stopPlayer_detached
       Sound.addPlayBackListener Sound.removePlayBackListener
       setInterval clearInterval readTimerRef showRecordingSheet
       hideRecordingSheet requestPermissions fst snd].

(** Brings a trace to the form [trace s ++ l]. *)
Ltac trace_shape :=
  apply emitted_app; cbn [trace setTrace setIsLoading setCurrentlyPlayingId
                          setPlayBackListener];
  rewrite <- ?app_assoc; reflexivity.

(* ================================================================== *)
(** ** PlaybackSession *)

Section Playback.

Variables (s : State) (item : RecordingItem).

(** From Idle the toggle starts the player on the item. *)
Lemma playRecording_from_idle (stopOk : bool) :
  Js.truthy (currentlyPlayingId s) = false ->
  let s' := exec (playRecording s item stopOk true) s in
  currentlyPlayingId s' = Some (id item) /\
  playBackListener s' = true /\
  emitted s s' = [StartPlayer (path item); AddPlayBackListener].
Proof.
  intros H. run_handler. rewrite H. cbn.
  repeat split. trace_shape.
Qed.

(** On the item that is playing the toggle stops the player. *)
Lemma playRecording_same (a : string) (stopOk startOk : bool) :
  currentlyPlayingId s = Some a -> a <> EmptyString -> id item = a ->
  let s' := exec (playRecording s item stopOk startOk) s in
  currentlyPlayingId s' = None /\
  emitted s s' =
    (if stopOk then [StopPlayer; RemovePlayBackListener]
     else [StopPlayer; Alert "Error" "Failed to play recording";
           ConsoleError "Play error:"]) /\
  (stopOk = true -> playBackListener s' = false).
Proof.
  intros H Ha Hid. run_handler. rewrite H, Hid.
  destruct a as [|x a]; [congruence|].
  cbn [Js.truthy Js.strictEq]. rewrite String.eqb_refl.
  destruct stopOk; cbn; repeat split; try trace_shape; discriminate.
Qed.

End Playback.

(** C4. A progress event delivered to the registered listener with
    [currentPosition = duration] ends the playback by itself: the engine's
    stopPlayer is called, the listener is removed and
    [currentlyPlayingId] becomes null, and nothing else of the state
    changes; an event with [currentPosition <> duration] leaves the
    state as it is. *)
Theorem playBack_completion (e : PlayBackType.t) (s : State) :
  playBackListener s = true ->
  (PlayBackType.currentPosition e = PlayBackType.duration e ->
   let s' := playBackEvent e s in
   currentlyPlayingId s' = None /\
   playBackListener s' = false /\
   emitted s s' = [StopPlayer; RemovePlayBackListener] /\
   s' = setCurrentlyPlayingId None
          (setPlayBackListener false (setTrace (trace s') s))) /\
  (PlayBackType.currentPosition e <> PlayBackType.duration e ->
   playBackEvent e s = s).
Proof.
  intros Hl. unfold playBackEvent. rewrite Hl. run_handler. split.
  - intros E. apply Z.eqb_eq in E. rewrite E. cbn.
    repeat split. trace_shape.
  - intros E. apply Z.eqb_neq in E. now rewrite E.
Qed.

Lemma playBack_completion_witness :
  let s := setCurrentlyPlayingId (Some "17") (setPlayBackListener true init) in
  currentlyPlayingId (playBackEvent (PlayBackType.mk 4200 4200) s) = None /\
  playBackEvent (PlayBackType.mk 4100 4200) s = s.
Proof.
  intros s.
  destruct (playBack_completion (PlayBackType.mk 4200 4200) s eq_refl)
    as [Hend _].
  destruct (playBack_completion (PlayBackType.mk 4100 4200) s eq_refl)
    as [_ Hmid].
  split.
  - apply (Hend eq_refl).
  - apply Hmid. discriminate.
Defined.

(** X11. When the engine fails to stop the old playback the handler goes
    to its [catch] block: no start is attempted, the listener stays
    registered, [currentlyPlayingId] becomes null and the user sees the
    alert [Failed to play recording]. *)
Lemma playRecording_stop_rejects (s : State) (a : string) (b : RecordingItem)
    (startPlayerOk : bool) :
  currentlyPlayingId s = Some a -> a <> EmptyString ->
  let s' := exec (playRecording s b false startPlayerOk) s in
  emitted s s' = [StopPlayer; Alert "Error" "Failed to play recording";
                  ConsoleError "Play error:"] /\
  currentlyPlayingId s' = None /\
  playBackListener s' = playBackListener s.
Proof.
  intros H Ha. run_handler. rewrite H.
  destruct a as [|x a]; [congruence|].
  cbn. repeat split. trace_shape.
Qed.

(** C5 as stated does not hold when the engine fails to stop the old
    playback: with the first record playing and its listener registered,
    a toggle on the second record whose stopPlayer rejects calls neither
    removePlayBackListener nor startPlayer; the listener stays registered
    and the state is Idle with the alert shown. *)
Lemma switch_stop_rejects_counterexample :
  let a := mkItem "1700000000000" "Recording 1" "00:03" "/d/a.m4a" "x" (Some false) in
  let b := mkItem "1700000009000" "Recording 2" "00:07" "/d/b.m4a" "y" (Some false) in
  let s := setPlayBackListener true
             (setCurrentlyPlayingId (Some (id a)) (setRecordings [a; b] init)) in
  let s' := exec (playRecording s b false true) s in
  emitted s s' = [StopPlayer; Alert "Error" "Failed to play recording";
                  ConsoleError "Play error:"] /\
  count isStartPlayer (emitted s s') = 0%nat /\
  playBackListener s' = true /\
  currentlyPlayingId s' = None /\
  ~ (forall stopPlayerOk startPlayerOk,
       let t := exec (playRecording s b stopPlayerOk startPlayerOk) s in
       In RemovePlayBackListener (emitted s t) /\
       count isStartPlayer (emitted s t) = 1%nat).
Proof.
  intros a b s s'.
  assert (E : emitted s s' = [StopPlayer; Alert "Error" "Failed to play recording";
                              ConsoleError "Play error:"])
    by (vm_compute; reflexivity).
  split; [exact E|]. rewrite E.
  do 3 (split; [vm_compute; reflexivity|]).
  intros C. destruct (C false true) as [_ N]. fold s' in N.
  rewrite E in N. discriminate N.
Qed.

(** C5, amended. While [a] is playing, a toggle on a record [b] with
    another id calls stopPlayer once. If that call resolves, the toggle is
    one stop followed by one start: the listener is removed, then
    startPlayer is called on the path of [b]; if the start succeeds the
    state is playing [b] with a listener registered, otherwise
    [currentlyPlayingId] is null and the failure is shown in an alert. If
    stopPlayer rejects, no listener is removed and no start is attempted:
    [currentlyPlayingId] is null, the listener is as before, and the
    failure is shown in an alert. *)
Theorem playRecording_switch (s : State) (a : string) (b : RecordingItem)
    (stopPlayerOk startPlayerOk : bool) :
  currentlyPlayingId s = Some a -> a <> EmptyString -> id b <> a ->
  let s' := exec (playRecording s b stopPlayerOk startPlayerOk) s in
  emitted s s' =
    (if stopPlayerOk
     then [StopPlayer; RemovePlayBackListener; StartPlayer (path b)] ++
          (if startPlayerOk then [AddPlayBackListener]
           else [Alert "Error" "Failed to play recording";
                 ConsoleError "Play error:"])
     else [StopPlayer; Alert "Error" "Failed to play recording";
           ConsoleError "Play error:"])%list /\
  count isStopPlayer (emitted s s') = 1%nat /\
  count isStartPlayer (emitted s s') = (if stopPlayerOk then 1%nat else 0%nat) /\
  currentlyPlayingId s' =
    (if (stopPlayerOk && startPlayerOk)%bool then Some (id b) else None) /\
  playBackListener s' =
    (if stopPlayerOk then startPlayerOk else playBackListener s) /\
  existsb isAlert (emitted s s') = negb (stopPlayerOk && startPlayerOk).
Proof.
  intros H Ha Hb s'.
  assert (N : exists x r, a = String x r /\
                          String.eqb (String x r) (id b) = false).
  { destruct a as [|x r]; [congruence|]. exists x, r. split; [reflexivity|].
    apply String.eqb_neq. congruence. }
  destruct N as (x & r & -> & N).
  assert (E : emitted s s' =
    (if stopPlayerOk
     then [StopPlayer; RemovePlayBackListener; StartPlayer (path b)] ++
          (if startPlayerOk then [AddPlayBackListener]
           else [Alert "Error" "Failed to play recording";
                 ConsoleError "Play error:"])
     else [StopPlayer; Alert "Error" "Failed to play recording";
           ConsoleError "Play error:"])%list).
  { subst s'. run_handler. rewrite H. cbn [Js.truthy Js.strictEq].
    rewrite N. destruct stopPlayerOk, startPlayerOk; cbn; trace_shape. }
  rewrite E. subst s'. run_handler. rewrite H. cbn [Js.truthy Js.strictEq].
  rewrite N. destruct stopPlayerOk, startPlayerOk; cbn; repeat split.
Qed.

Lemma playRecording_switch_witness :
  let a := mkItem "1700000000000" "Recording 1" "00:03" "/d/a.m4a" "x" (Some false) in
  let b := mkItem "1700000009000" "Recording 2" "00:07" "/d/b.m4a" "y" (Some false) in
  let s := setPlayBackListener true
             (setCurrentlyPlayingId (Some (id a)) (setRecordings [a; b] init)) in
  currentlyPlayingId (exec (playRecording s b true true) s) = Some (id b) /\
  currentlyPlayingId (exec (playRecording s b true false) s) = None /\
  currentlyPlayingId (exec (playRecording s b false true) s) = None.
Proof.
  intros a b s. split; [|split].
  - apply (playRecording_switch s (id a) b true true eq_refl);
      discriminate.
  - apply (playRecording_switch s (id a) b true false eq_refl);
      discriminate.
  - apply (playRecording_switch s (id a) b false true eq_refl);
      discriminate.
Defined.

(** C6. From Idle, a toggle on a record whose playback starts, followed by
    a second toggle on the same record, ends Idle ([currentlyPlayingId]
    null) whether or not the engine's stop succeeds; the two toggles call
    stopPlayer once, and the second toggle does not call startPlayer. *)
Theorem playRecording_toggle_twice (s : State) (item : RecordingItem)
    (stop1 start1 stop2 start2 : bool) :
  currentlyPlayingId s = None -> id item <> EmptyString -> start1 = true ->
  let s1 := exec (playRecording s item stop1 start1) s in
  let s2 := exec (playRecording s1 item stop2 start2) s1 in
  currentlyPlayingId s1 = Some (id item) /\
  currentlyPlayingId s2 = None /\
  (count isStopPlayer (emitted s s2) <= 1)%nat /\
  count isStartPlayer (emitted s1 s2) = 0%nat /\
  (stop2 = true -> playBackListener s2 = false).
Proof.
  intros H Hid -> s1 s2.
  assert (Js.truthy (currentlyPlayingId s) = false) as Hidle by now rewrite H.
  destruct (playRecording_from_idle s item stop1 Hidle) as (P1 & L1 & E1).
  fold s1 in P1, L1, E1.
  destruct (playRecording_same s1 item (id item) stop2 start2 P1 Hid eq_refl)
    as (P2 & E2 & L2).
  fold s2 in P2, E2, L2.
  assert (T1 : trace s1 = (trace s ++ [StartPlayer (path item);
                                       AddPlayBackListener])%list).
  { subst s1. run_handler. rewrite Hidle. cbn. now rewrite <- !app_assoc. }
  assert (T2 : trace s2 = (trace s1 ++ emitted s1 s2)%list).
  { rewrite E2. subst s2. run_handler. rewrite P1.
    destruct (id item) as [|x r]; [congruence|].
    cbn [Js.truthy Js.strictEq]. rewrite String.eqb_refl.
    destruct stop2; cbn; now rewrite <- ?app_assoc. }
  repeat split; auto.
  - rewrite (emitted_app s s2 ([StartPlayer (path item); AddPlayBackListener]
                               ++ emitted s1 s2)).
    + rewrite E2. destruct stop2; cbn; lia.
    + rewrite T2, T1. now rewrite <- app_assoc.
  - rewrite E2. destruct stop2; reflexivity.
Qed.

Lemma playRecording_toggle_twice_witness :
  let a := mkItem "1700000000000" "Recording 1" "00:03" "/d/a.m4a" "x" (Some false) in
  let s := setRecordings [a] init in
  currentlyPlayingId
    (exec (playRecording (exec (playRecording s a true true) s) a true true)
          (exec (playRecording s a true true) s)) = None.
Proof.
  intros a s.
  apply (playRecording_toggle_twice s a true true true true eq_refl);
    [discriminate | reflexivity].
Defined.

Lemma playRecording_keeps_session (c s : State) (item : RecordingItem)
    (stopPlayerOk startPlayerOk : bool) :
  let s' := exec (playRecording c item stopPlayerOk startPlayerOk) s in
  recordings s' = recordings s /\
  isRecording s' = isRecording s /\
  timerRef s' = timerRef s /\
  intervals s' = intervals s.
Proof.
  run_handler.
  destruct (Js.truthy (currentlyPlayingId c)),
           (Js.strictEq (currentlyPlayingId c) (id item)),
           stopPlayerOk, startPlayerOk; cbn; repeat split.
Qed.

(** C10. A call of [playRecording] leaves the list of recordings as it
    was (same records, same order, same fields), whether it starts,
    switches, stops or fails a playback; of the hooks it changes
    [currentlyPlayingId] and [isLoading] only. *)
Theorem playRecording_frame (c s : State) (item : RecordingItem)
    (stopPlayerOk startPlayerOk : bool) :
  let s' := exec (playRecording c item stopPlayerOk startPlayerOk) s in
  recordings s' = recordings s /\
  isRecording s' = isRecording s /\
  currentRecordingPath s' = currentRecordingPath s /\
  recordingStartTime s' = recordingStartTime s /\
  isRecordingSheetVisible s' = isRecordingSheetVisible s /\
  recordingDuration s' = recordingDuration s /\
  timerRef s' = timerRef s /\
  intervals s' = intervals s /\
  isLoading s' = false.
Proof.
  run_handler.
  destruct (Js.truthy (currentlyPlayingId c)),
           (Js.strictEq (currentlyPlayingId c) (id item)),
           stopPlayerOk, startPlayerOk; cbn; repeat split.
Qed.

(* ================================================================== *)
(** ** SessionCoordinator: recording and playback together *)

Lemma playBackEvent_frame (e : PlayBackType.t) (s : State) :
  let s' := playBackEvent e s in
  recordings s' = recordings s /\
  isRecording s' = isRecording s /\
  timerRef s' = timerRef s /\
  intervals s' = intervals s.
Proof.
  unfold playBackEvent. run_handler.
  destruct (playBackListener s),
           (PlayBackType.currentPosition e =? PlayBackType.duration e);
    cbn; repeat split.
Qed.

Lemma requestTogglePlayback_frame (index : nat) (a b : bool) (s : State) :
  let s' := requestTogglePlayback index a b s in
  recordings s' = recordings s /\
  isRecording s' = isRecording s /\
  timerRef s' = timerRef s /\
  intervals s' = intervals s.
Proof.
  unfold requestTogglePlayback.
  destruct (nth_error (recordings s) index) as [item|]; [|repeat split].
  apply playRecording_keeps_session.
Qed.

Lemma startRecording_keeps_playback (env : Env) (i : StartInput) (s : State) :
  currentlyPlayingId (exec (Sheet.startRecording env i) s) =
    currentlyPlayingId s /\
  currentlyPlayingId (exec (RecordingsScreen.startRecording env i) s) =
    currentlyPlayingId s.
Proof.
  run_handler.
  destruct (platformOS env), (grants i) as [[[] []]|], (startRecorderOk i);
    cbn; destruct (timerRef s); split; reflexivity.
Qed.

Lemma stopRecording_keeps_playback (c s : State) (o : StopInput) :
  currentlyPlayingId (exec (Sheet.stopRecording c o) s) =
    currentlyPlayingId s /\
  currentlyPlayingId (exec (RecordingsScreen.stopRecording c o) s) =
    currentlyPlayingId s.
Proof.
  run_handler.
  destruct (isRecording c), (Js.truthy (currentRecordingPath c)),
           (stopRecorderOk o), (Js.truthyNum (recordingStartTime c));
    cbn; destruct (timerRef s); split; reflexivity.
Qed.

(** C1 as stated does not hold: after a clip has been recorded and its
    playback started, a press on the record button starts a recording
    while [currentlyPlayingId] still names the clip; and a press on a row
    starts a playback while a recording runs. *)
Lemma exclusion_counterexample :
  (let s := Sheet.run Sample.env Sample.record_then_play_then_record init in
   isRecording s = true /\ currentlyPlayingId s = Some "1700000004001") /\
  (let s := Sheet.run Sample.env Sample.record_then_record_then_play init in
   isRecording s = true /\ currentlyPlayingId s = Some "1700000004001") /\
  ~ (forall evs, exclusive (Sheet.run Sample.env evs init)).
Proof.
  assert (H : let s := Sheet.run Sample.env
                         Sample.record_then_play_then_record init in
              isRecording s = true /\
              currentlyPlayingId s = Some "1700000004001")
    by (vm_compute; split; reflexivity).
  split; [exact H|]. split; [vm_compute; split; reflexivity|].
  intros C. apply (C Sample.record_then_play_then_record).
  destruct H as [H1 H2]. split; [exact H1|]. rewrite H2. discriminate.
Qed.

(** C1, amended. The two sessions are independent of each other: the
    record button never changes [currentlyPlayingId], and a toggle of a
    playback or a progress event never changes [isRecording]. So a
    recording that starts during a playback leaves the playback active,
    and a playback that starts during a recording leaves the recording
    active. *)
Theorem sessions_independent (env : Env) (i : StartInput) (o : StopInput)
    (index : nat) (stopPlayerOk startPlayerOk : bool) (e : PlayBackType.t)
    (s : State) :
  currentlyPlayingId (Sheet.requestToggleRecording env i o s) =
    currentlyPlayingId s /\
  currentlyPlayingId (Sheet.pressSheetStop o s) = currentlyPlayingId s /\
  isRecording (requestTogglePlayback index stopPlayerOk startPlayerOk s) =
    isRecording s /\
  isRecording (playBackEvent e s) = isRecording s.
Proof.
  repeat split.
  - unfold Sheet.requestToggleRecording.
    destruct (isLoading s); [reflexivity|].
    destruct (isRecording s).
    + apply stopRecording_keeps_playback.
    + apply startRecording_keeps_playback.
  - unfold Sheet.pressSheetStop.
    destruct (isRecordingSheetVisible s); [|reflexivity].
    apply stopRecording_keeps_playback.
  - apply requestTogglePlayback_frame.
  - apply playBackEvent_frame.
Qed.

(* ================================================================== *)
(** ** RecordingSession: stop without an active recording *)

(** C7 as stated does not hold: on a freshly mounted screen
    [stopRecording] returns normally, shows no alert and throws nothing,
    in both files. *)
Lemma stop_idle_counterexample :
  Sheet.stopRecording init (Sample.stop true 1700000004000) init
    = (init, Return) /\
  RecordingsScreen.stopRecording init (Sample.stop true 1700000004000) init
    = (init, Return) /\
  ~ (forall c o s, isRecording c = false ->
                   signalsFailure s (Sheet.stopRecording c o s) = true).
Proof.
  split; [reflexivity|]. split; [reflexivity|].
  intros C.
  specialize (C init (Sample.stop true 1700000004000) init eq_refl).
  discriminate C.
Qed.

(** C7, amended. [stopRecording] called while no recording is active
    returns at once, without an error and without an alert: the state
    (the list of recordings included) is the one before the call, no
    engine call is made and no record is created. *)
Theorem stopRecording_idle (c s : State) (o : StopInput) :
  isRecording c = false ->
  Sheet.stopRecording c o s = (s, Return) /\
  RecordingsScreen.stopRecording c o s = (s, Return) /\
  signalsFailure s (Sheet.stopRecording c o s) = false /\
  signalsFailure s (RecordingsScreen.stopRecording c o s) = false /\
  emitted s (exec (Sheet.stopRecording c o) s) = [] /\
  emitted s (exec (RecordingsScreen.stopRecording c o) s) = [].
Proof.
  intros H.
  assert (A : Sheet.stopRecording c o s = (s, Return))
    by (unfold Sheet.stopRecording; now rewrite H).
  assert (B : RecordingsScreen.stopRecording c o s = (s, Return))
    by (unfold RecordingsScreen.stopRecording; now rewrite H).
  unfold signalsFailure, exec. rewrite A, B. cbn [fst snd].
  rewrite emitted_refl. repeat split.
Qed.

Lemma stopRecording_idle_witness :
  Sheet.stopRecording init (Sample.stop true 5) init = (init, Return).
Proof.
  apply (stopRecording_idle init init (Sample.stop true 5) eq_refl).
Defined.

(* ================================================================== *)
(** ** RecordingSession: the duration timer *)

Section TimerInvariant.

Variable env : Env.

Lemma timer_inv_init : timer_inv init.
Proof. split; reflexivity. Qed.

Lemma timer_inv_start (i : StartInput) (s : State) :
isRecording s = false -> timer_inv s ->
timer_inv (exec (Sheet.startRecording env i) s).
Proof.
unfold timer_inv. intros R. rewrite R. intros [T I].
run_handler.
destruct (platformOS env), (grants i) as [[[] []]|], (startRecorderOk i);
  cbn; rewrite ?R, ?T; cbn; rewrite ?R, ?I; eauto.
Qed.

Lemma timer_inv_stop (o : StopInput) (s : State) :
timer_inv s -> timer_inv (exec (Sheet.stopRecording s o) s).
Proof.
unfold timer_inv. run_handler.
destruct (isRecording s) eqn:R; cbn; [|now rewrite R].
intros (h & st & T & I).
destruct (Js.truthy (currentRecordingPath s)), (stopRecorderOk o);
  cbn; rewrite ?R, ?T; cbn; rewrite ?R, ?I; cbn;
  rewrite ?Pos.eqb_refl; cbn; eauto.
Qed.

Lemma timer_inv_frame (s s' : State) :
isRecording s' = isRecording s -> timerRef s' = timerRef s ->
intervals s' = intervals s -> timer_inv s -> timer_inv s'.
Proof. unfold timer_inv. now intros -> -> ->. Qed.

Lemma timer_inv_step (s : State) (ev : Sheet.Event) :
timer_inv s -> timer_inv (Sheet.step env s ev).
Proof.
intros H. destruct ev as [i o|o|index a b|h t|e|]; cbn [Sheet.step].
- unfold Sheet.requestToggleRecording.
  destruct (isLoading s); [assumption|].
  destruct (isRecording s) eqn:R.
  + now apply timer_inv_stop.
  + now apply timer_inv_start.
- unfold Sheet.pressSheetStop.
  destruct (isRecordingSheetVisible s); [|assumption].
  now apply timer_inv_stop.
- apply (timer_inv_frame s); trivial; apply requestTogglePlayback_frame.
- unfold Sheet.tick.
  destruct (find _ (intervals s)) as [[? ?]|]; assumption.
- apply (timer_inv_frame s); trivial; apply playBackEvent_frame.
- unfold sheetHidden. destruct (sheetHidePending s); assumption.
Qed.

Lemma timer_inv_run (evs : list Sheet.Event) (s : State) :
timer_inv s -> timer_inv (Sheet.run env evs s).
Proof.
revert s. induction evs as [|ev evs IH]; intros s H; [exact H|].
apply IH, timer_inv_step, H.
Qed.

End TimerInvariant.

(** C8 as stated does not hold: when the engine fails to stop the
    recording, the interval task started by [startRecording] is still
    scheduled, with its period of 500 ms, after [stopRecording] has shown
    its alert (and [isRecording] is still true). *)
Lemma tick_survives_failed_stop :
  let s := Sheet.run Sample.env Sample.record_then_failed_stop init in
  intervals s = [(1%positive, mkTimer 1700000000041 500)] /\
  timerRef s = Some 1%positive /\
  isRecording s = true /\
  existsb isAlert (trace s) = true.
Proof. vm_compute. repeat split. Qed.

(** C8, amended. In every state the screen reaches, the duration timer
    is scheduled exactly while [isRecording] is true: while it is true
    there is one interval task, the one [timerRef] holds, and while it is
    false there is none and [timerRef] is null. *)
Theorem timer_alive_iff_recording (env : Env) (evs : list Sheet.Event) :
  let s := Sheet.run env evs init in
  (isRecording s = true ->
   exists h st, timerRef s = Some h /\ intervals s = [(h, st)]) /\
  (isRecording s = false -> timerRef s = None /\ intervals s = []).
Proof.
  intros s.
  pose proof (timer_inv_run env evs init timer_inv_init) as H.
  fold s in H. unfold timer_inv in H.
  split; intros R; rewrite R in H; exact H.
Qed.

(* ================================================================== *)
(** ** RecordingSession: start, ticks, stop *)

Lemma recordingPath_truthy (env : Env) (t : Z) :
  Js.truthy (Some (recordingPathOf env t)) = true.
Proof.
  unfold recordingPathOf.
  destruct (match platformOS env with
            | Ios => DocumentDirectoryPath env
            | Android => ExternalDirectoryPath env
            end); reflexivity.
Qed.

Lemma requestPermissions_permitted (env : Env) g (s : State) :
  permitted env g = true ->
  exists s', requestPermissions env g s = (s', Normal true) /\
             recordings s' = recordings s /\
             timerRef s' = timerRef s /\
             intervals s' = intervals s /\
             nextHandle s' = nextHandle s.
Proof.
  unfold permitted, requestPermissions. run_handler.
  destruct (platformOS env).
  - intros _. exists s. repeat split.
  - destruct g as [[a w]|]; [|discriminate]. intros ->.
    eexists. repeat split.
Qed.

Lemma sheet_start_permitted (env : Env) (i : StartInput) (s s' : State) :
  requestPermissions env (grants i) s = (s', Normal true) ->
  exec (Sheet.startRecording env i) s = exec (Sheet.startRecordingTry env i) s'.
Proof. intros E. unfold exec, Sheet.startRecording, bind. now rewrite E. Qed.

Lemma screen_start_permitted (env : Env) (i : StartInput) (s s' : State) :
  requestPermissions env (grants i) s = (s', Normal true) ->
  exec (RecordingsScreen.startRecording env i) s =
  exec (RecordingsScreen.startRecordingTry env i) s'.
Proof.
  intros E. unfold exec, RecordingsScreen.startRecording, bind. now rewrite E.
Qed.

Section StartStop.

Variables (env : Env) (i : StartInput) (s0 : State).
Hypothesis Hperm : permitted env (grants i) = true.
Hypothesis Hstart : startRecorderOk i = true.

(** The state after a successful [startRecording] of part_000. *)
Lemma sheet_start_ok :
let s1 := exec (Sheet.startRecording env i) s0 in
recordings s1 = recordings s0 /\
isRecording s1 = true /\
currentRecordingPath s1 = Some (recordingPathOf env (timestamp i)) /\
recordingDuration s1 = "00:00" /\
timerRef s1 = Some (nextHandle s0) /\
exists rest,
  intervals s1 = (nextHandle s0, mkTimer (startTime i) 500) :: rest.
Proof.
destruct (requestPermissions_permitted env (grants i) s0 Hperm)
  as (s' & E & Er & Et & Ei & En).
cbv zeta. rewrite (sheet_start_permitted env i s0 s' E).
run_handler. rewrite Hstart. cbn.
destruct (timerRef s'); cbn; rewrite ?En; repeat split; eauto.
Qed.

(** The state after a successful [startRecording] of
  RecordingsScreen.tsx. *)
Lemma screen_start_ok :
let s1 := exec (RecordingsScreen.startRecording env i) s0 in
recordings s1 = recordings s0 /\
isRecording s1 = true /\
currentRecordingPath s1 = Some (recordingPathOf env (timestamp i)) /\
recordingStartTime s1 = Some (nowAfterStart i).
Proof.
destruct (requestPermissions_permitted env (grants i) s0 Hperm)
  as (s' & E & Er & _).
cbv zeta. rewrite (screen_start_permitted env i s0 s' E).
run_handler. rewrite Hstart. cbn. repeat split. exact Er.
Qed.

End StartStop.

Lemma ticks_cons (t : Z) (times : list Z) (s : State) h st period rest :
  timerRef s = Some h -> intervals s = (h, mkTimer st period) :: rest ->
  Sheet.ticks (t :: times) s =
  Sheet.ticks times (setRecordingDuration (formatTime (t - st)) s).
Proof.
  intros T I. unfold Sheet.ticks. cbn [fold_left]. rewrite T.
  unfold Sheet.tick. rewrite I. cbn [find fst]. now rewrite Pos.eqb_refl.
Qed.

(** Ticks of the current timer change [recordingDuration] only, to the
    time of the last tick since the captured start. *)
Lemma ticks_spec (times : list Z) :
  forall (s : State) (h : positive) (st period : Z) rest,
  timerRef s = Some h -> intervals s = (h, mkTimer st period) :: rest ->
  let s' := Sheet.ticks times s in
  recordings s' = recordings s /\
  isRecording s' = isRecording s /\
  currentRecordingPath s' = currentRecordingPath s /\
  recordingDuration s' =
    match times with
    | [] => recordingDuration s
    | _ => formatTime (last times 0 - st)
    end.
Proof.
  induction times as [|t times IH]; intros s h st period rest T I;
    [repeat split|].
  cbv zeta. rewrite (ticks_cons t times s h st period rest T I).
  destruct (IH (setRecordingDuration (formatTime (t - st)) s) h st period
              rest T I)
    as (A & B & C & D).
  repeat split; try assumption.
  rewrite D. destruct times; reflexivity.
Qed.

Section Stop.

Variables (c s : State) (o : StopInput).
Hypothesis Hrec : isRecording c = true.
Hypothesis Hpath : Js.truthy (currentRecordingPath c) = true.
Hypothesis Hstop : stopRecorderOk o = true.

(** A successful [stopRecording] of part_000 publishes the list of the
  render [c] it closed over, extended by the new record. *)
Lemma sheet_stop_ok :
let s' := exec (Sheet.stopRecording c o) s in
recordings s' = (recordings c ++ [Sheet.newRecording c o])%list /\
isRecording s' = false /\ intervals s' =
  match timerRef s with
  | Some h => filter (fun p => negb (Pos.eqb (fst p) h)) (intervals s)
  | None => intervals s
  end.
Proof.
run_handler. rewrite Hrec, Hpath, Hstop. cbn.
destruct (timerRef s); cbn; repeat split.
Qed.

Lemma screen_stop_ok :
let s' := exec (RecordingsScreen.stopRecording c o) s in
recordings s' = (recordings c ++ [RecordingsScreen.newRecording c o])%list /\
isRecording s' = false.
Proof.
run_handler. rewrite Hrec, Hpath, Hstop. cbn.
destruct (Js.truthyNum (recordingStartTime c)); cbn; repeat split.
Qed.

End Stop.

Lemma nth_error_snoc {A} (l : list A) (x : A) :
  nth_error (l ++ [x]) (List.length l) = Some x.
Proof. induction l; simpl; auto. Qed.

Lemma last_cons_default (t : Z) (times : list Z) (d d' : Z) :
  last (t :: times) d = last (t :: times) d'.
Proof.
  revert t. induction times as [|u times IH]; intros t; [reflexivity|].
  change (last (u :: times) d = last (u :: times) d'). apply IH.
Qed.

(** The text on the sheet after the ticks at [times]: the format of the
    last tick's time since the start, or of 0 before the first tick. *)
Lemma sheet_snapshot env i s0 (times : list Z) :
  permitted env (grants i) = true -> startRecorderOk i = true ->
  recordingDuration (Sheet.ticks times (exec (Sheet.startRecording env i) s0))
  = formatTime (last times (startTime i) - startTime i).
Proof.
  intros Hp Hs.
  destruct (sheet_start_ok env i s0 Hp Hs) as (_ & _ & _ & D & T & rest & I).
  destruct (ticks_spec times _ _ _ _ _ T I) as (_ & _ & _ & E).
  rewrite E. destruct times as [|t times].
  - rewrite D. cbn [last]. now rewrite Z.sub_diag.
  - rewrite (last_cons_default t times 0 (startTime i)). reflexivity.
Qed.

Lemma last_map_seq (f : nat -> Z) (n : nat) (d : Z) :
  last (map f (seq 1 n)) d = match n with O => d | S _ => f n end.
Proof.
  induction n as [|n IH]; [reflexivity|].
  rewrite seq_S, map_app. cbn [map]. rewrite last_last. reflexivity.
Qed.

(** The last run of a callback that fires on schedule is less than one
    period before the stop. *)
Lemma dueTimes_last (created period stopTime : Z) :
  0 < period -> created <= stopTime ->
  let lastTick := last (Sheet.dueTimes created period stopTime) created in
  lastTick - created = period * ((stopTime - created) / period) /\
  0 <= stopTime - lastTick < period.
Proof.
  intros Hp Hc. cbv zeta. unfold Sheet.dueTimes. rewrite last_map_seq.
  pose proof (Z.div_pos (stopTime - created) period ltac:(lia) Hp) as Hk.
  pose proof (Z.div_mod (stopTime - created) period ltac:(lia)) as Dm.
  pose proof (Z.mod_pos_bound (stopTime - created) period Hp) as Bm.
  destruct (Z.to_nat ((stopTime - created) / period)) as [|n] eqn:E.
  - assert ((stopTime - created) / period = 0) by lia. lia.
  - rewrite <- E, Z2Nat.id by lia. lia.
Qed.

Lemma formatTime_readback (ms : Z) :
  0 <= ms < 2 ^ 53 ->
  parse_mmss (formatTime ms) = Some (ms / 1000 / 60, (ms / 1000) mod 60).
Proof.
  intros Hms.
  assert (Hts : 0 <= ms / 1000) by (apply Z.div_pos; lia).
  assert (Hmin : 0 <= ms / 1000 / 60) by (apply Z.div_pos; lia).
  assert (Hsec : 0 <= (ms / 1000) mod 60 < 60) by (apply Z.mod_pos_bound; lia).
  rewrite formatTime_safe by exact Hms.
  destruct (toString_nonneg _ Hmin) as (dm & Hdm & Em & Vm).
  destruct (toString_nonneg _ (proj1 Hsec)) as (ds & Hds & Es & Vs).
  destruct (pad2_print dm Hdm) as (Am & _ & Pm).
  destruct (pad2_print ds Hds) as (_ & _ & Ps).
  rewrite Em, Es. unfold parse_mmss.
  rewrite (split_colon_digits _ _ Am), Pm, Ps. now rewrite Vm, Vs.
Qed.

(** C2 as stated does not hold for part_000: the duration of the record
    is the text of the last tick that ran, and nothing in the handlers
    makes a tick run. When the callback has not run before the stop (the
    timer is late), a stop 64960 ms after the start appends a record with
    the duration 00:00, which is the text of no time within 500 ms of
    64960 ms. *)
Lemma late_tick_counterexample :
  let i := Sample.start 1700000000000 in
  let o := Sample.stop true 1700000065000 in
  let s1 := exec (Sheet.startRecording Sample.env i) init in
  let s3 := exec (Sheet.stopRecording s1 o) s1 in
  now o - startTime i = 64960 /\
  map duration (recordings s3) = ["00:00"] /\
  ~ (exists t, Z.abs (64960 - t) <= 500 /\ formatTime t = "00:00").
Proof.
  intros i o s1 s3. split; [reflexivity|]. split; [vm_compute; reflexivity|].
  intros (t & B & F).
  assert (R : 0 <= t < 2 ^ 53).
  { assert (65460 < 2 ^ 53) by reflexivity. lia. }
  pose proof (formatTime_readback t R) as P. rewrite F in P.
  change (parse_mmss "00:00") with (Some (0, 0)) in P. injection P as M S.
  pose proof (Z.div_mod (t / 1000) 60 ltac:(lia)).
  pose proof (Z.div_mod t 1000 ltac:(lia)).
  pose proof (Z.mod_pos_bound t 1000 ltac:(lia)). lia.
Qed.

(** C2, amended. A successful start followed by a successful stop appends
    one record at the end of the list, whatever the list held before and
    without touching its earlier entries, and the record is named
    ["Recording N"] with [N] its 1-based position. In part_000 its
    duration is the text of the last tick; when the interval started by
    [startRecording] has fired on schedule up to the stop, that text is
    the format of a time [t] less than 500 ms (the period the code passes
    to [setInterval]) before the time elapsed between start and stop, and
    it reads back as the whole seconds of [t]. In RecordingsScreen.tsx
    [t] is the elapsed time itself. *)
Theorem start_stop_appends_one (env : Env) (i : StartInput) (o : StopInput)
    (s0 : State) :
  permitted env (grants i) = true ->
  startRecorderOk i = true ->
  stopRecorderOk o = true ->
  (startTime i <= now o < startTime i + 2 ^ 53 ->
   let s1 := exec (Sheet.startRecording env i) s0 in
   let s2 := Sheet.ticks (Sheet.scheduledTicks s1 (now o)) s1 in
   let s3 := exec (Sheet.stopRecording s2 o) s2 in
   exists r t,
     recordings s3 = (recordings s0 ++ [r])%list /\
     nth_error (recordings s3) (List.length (recordings s0)) = Some r /\
     name r = "Recording " ++
              Js.toString (Z.of_nat (S (List.length (recordings s0)))) /\
     0 <= (now o - startTime i) - t < 500 /\
     duration r = formatTime t /\
     parse_mmss (duration r) = Some (t / 1000 / 60, (t / 1000) mod 60)) /\
  (nowAfterStart i <> 0 ->
   nowAfterStart i <= nowDuration o < nowAfterStart i + 2 ^ 53 ->
   let s1 := exec (RecordingsScreen.startRecording env i) s0 in
   let s3 := exec (RecordingsScreen.stopRecording s1 o) s1 in
   exists r,
     recordings s3 = (recordings s0 ++ [r])%list /\
     nth_error (recordings s3) (List.length (recordings s0)) = Some r /\
     name r = "Recording " ++
              Js.toString (Z.of_nat (S (List.length (recordings s0)))) /\
     let t := nowDuration o - nowAfterStart i in
     duration r = formatTime t /\
     parse_mmss (duration r) = Some (t / 1000 / 60, (t / 1000) mod 60)).
Proof.
  intros Hp Hs Ho. split.
  - intros Hc s1 s2 s3.
    destruct (sheet_start_ok env i s0 Hp Hs) as (R1 & A1 & P1 & _ & T1 & rest & I1).
    fold s1 in R1, A1, P1, T1, I1.
    assert (Sch : Sheet.scheduledTicks s1 (now o) =
                  Sheet.dueTimes (startTime i) 500 (now o)).
    { unfold Sheet.scheduledTicks. rewrite T1, I1. cbn [find fst].
      now rewrite Pos.eqb_refl. }
    destruct (ticks_spec (Sheet.scheduledTicks s1 (now o)) s1 _ _ _ _ T1 I1)
      as (R2 & A2 & P2 & _).
    fold s2 in R2, A2, P2.
    assert (Hrec : isRecording s2 = true) by congruence.
    assert (Hpath : Js.truthy (currentRecordingPath s2) = true)
      by (rewrite P2, P1; apply recordingPath_truthy).
    destruct (sheet_stop_ok s2 s2 o Hrec Hpath Ho) as (R3 & _).
    fold s3 in R3. rewrite R2, R1 in R3.
    destruct (dueTimes_last (startTime i) 500 (now o) ltac:(lia) (proj1 Hc))
      as (L1 & L2).
    set (lastTick := last (Sheet.dueTimes (startTime i) 500 (now o))
                          (startTime i)) in *.
    assert (D : duration (Sheet.newRecording s2 o) =
                formatTime (lastTick - startTime i)).
    { cbn [duration Sheet.newRecording]. subst s2 s1 lastTick.
      rewrite <- Sch. now apply sheet_snapshot. }
    exists (Sheet.newRecording s2 o), (lastTick - startTime i).
    split; [exact R3|].
    split; [rewrite R3; apply nth_error_snoc|].
    split.
    { cbn [name Sheet.newRecording]. rewrite R2, R1.
      rewrite Nat2Z.inj_succ, <- Z.add_1_r. reflexivity. }
    split; [lia|]. split; [exact D|].
    rewrite D. apply formatTime_readback. lia.
  - intros Hn Hc s1 s3.
    destruct (screen_start_ok env i s0 Hp Hs) as (R1 & A1 & P1 & T1).
    fold s1 in R1, A1, P1, T1.
    assert (Hpath : Js.truthy (currentRecordingPath s1) = true)
      by (rewrite P1; apply recordingPath_truthy).
    destruct (screen_stop_ok s1 s1 o A1 Hpath Ho) as (R3 & _).
    fold s3 in R3. rewrite R1 in R3.
    assert (D : duration (RecordingsScreen.newRecording s1 o) =
                formatTime (nowDuration o - nowAfterStart i)).
    { cbn [duration RecordingsScreen.newRecording].
      unfold RecordingsScreen.durationAtStop. rewrite T1.
      cbn [Js.truthyNum]. apply Z.eqb_neq in Hn. now rewrite Hn. }
    exists (RecordingsScreen.newRecording s1 o). split; [exact R3|].
    split; [rewrite R3; apply nth_error_snoc|].
    split.
    { cbn [name RecordingsScreen.newRecording]. rewrite R1.
      rewrite Nat2Z.inj_succ, <- Z.add_1_r. reflexivity. }
    cbv zeta. split; [exact D|].
    rewrite D. apply formatTime_readback. lia.
Qed.

Lemma start_stop_appends_one_witness :
  let i := Sample.start 1700000000000 in
  let o := Sample.stop true 1700000065000 in
  let s1 := exec (Sheet.startRecording Sample.env i) init in
  let s2 := Sheet.ticks (Sheet.scheduledTicks s1 (now o)) s1 in
  let c := exec (RecordingsScreen.startRecording Sample.env i) init in
  (exists r, recordings (exec (Sheet.stopRecording s2 o) s2) = [r] /\
             name r = "Recording 1" /\
             parse_mmss (duration r) = Some (1, 4)) /\
  (exists r, recordings (exec (RecordingsScreen.stopRecording c o) c) = [r] /\
             name r = "Recording 1" /\
             parse_mmss (duration r) = Some (1, 4)).
Proof.
  intros i o s1 s2 c.
  destruct (start_stop_appends_one Sample.env i o init
              eq_refl eq_refl eq_refl) as [A B].
  split.
  - destruct A as (r & t & E & _ & N & Bt & D & P).
    { split; [discriminate | reflexivity]. }
    exists r. split; [exact E|]. split; [exact N|].
    rewrite P. cbn [now startTime i o Sample.stop Sample.start] in Bt.
    assert (T : t / 1000 = 64)
      by (symmetry; apply Z.div_unique with (r := t - 64000); lia).
    rewrite T. reflexivity.
  - destruct B as (r & E & _ & N & D & P).
    { discriminate. }
    { split; [discriminate | reflexivity]. }
    exists r. split; [exact E|]. split; [exact N|]. exact P.
Defined.

(* ================================================================== *)
(** ** RecordingSession: where the duration of a record comes from *)

(** C3 as stated does not hold for RecordingsScreen.tsx: from one and
    the same render, a stop at 1700000002040 and a stop at 1700000065040
    produce the durations 00:02 and 01:05, so the duration is computed
    from the clock when the stop runs. *)
Lemma stop_duration_counterexample :
  let c := Sample.recording_render in
  map duration
      (recordings (exec (RecordingsScreen.stopRecording c
                           (Sample.stop true 1700000002040)) c)) = ["00:02"] /\
  map duration
      (recordings (exec (RecordingsScreen.stopRecording c
                           (Sample.stop true 1700000065040)) c)) = ["01:05"] /\
  ~ (forall o o',
       stopRecorderOk o = true -> stopRecorderOk o' = true ->
       map duration (recordings (exec (RecordingsScreen.stopRecording c o) c)) =
       map duration (recordings (exec (RecordingsScreen.stopRecording c o') c))).
Proof.
  intros c.
  assert (A : map duration
      (recordings (exec (RecordingsScreen.stopRecording c
                           (Sample.stop true 1700000002040)) c)) = ["00:02"])
    by (vm_compute; reflexivity).
  assert (B : map duration
      (recordings (exec (RecordingsScreen.stopRecording c
                           (Sample.stop true 1700000065040)) c)) = ["01:05"])
    by (vm_compute; reflexivity).
  split; [exact A|]. split; [exact B|].
  intros C.
  specialize (C (Sample.stop true 1700000002040)
                (Sample.stop true 1700000065040) eq_refl eq_refl).
  rewrite A, B in C. discriminate C.
Qed.

(** C3, amended. In part_000 the duration of the record a successful
    stop appends is the [recordingDuration] of the render the stop was
    invoked on: the text the last tick before the stop produced (00:00
    when no tick has run), whatever the clock shows when the stop runs
    and whatever ticks arrive while the engine stops. In
    RecordingsScreen.tsx, which has no tick, it is the format of the
    clock at the stop minus the recorded start time. *)
Theorem stop_duration_source (env : Env) (i : StartInput) (o : StopInput)
    (times later : list Z) (s0 : State) :
  permitted env (grants i) = true ->
  startRecorderOk i = true ->
  stopRecorderOk o = true ->
  (let c := Sheet.ticks times (exec (Sheet.startRecording env i) s0) in
   let s' := exec (Sheet.stopRecording c o) (Sheet.ticks later c) in
   exists r,
     recordings s' = (recordings s0 ++ [r])%list /\
     duration r = recordingDuration c /\
     duration r = formatTime (last times (startTime i) - startTime i)) /\
  (nowAfterStart i <> 0 ->
   let c := exec (RecordingsScreen.startRecording env i) s0 in
   let s' := exec (RecordingsScreen.stopRecording c o) c in
   exists r,
     recordings s' = (recordings s0 ++ [r])%list /\
     duration r = formatTime (nowDuration o - nowAfterStart i)).
Proof.
  intros Hp Hs Ho. split.
  - intros c s'.
    destruct (sheet_start_ok env i s0 Hp Hs) as (R1 & A1 & P1 & _ & T1 & rest & I1).
    destruct (ticks_spec times _ _ _ _ _ T1 I1) as (R2 & A2 & P2 & _).
    fold c in R2, A2, P2.
    assert (Hrec : isRecording c = true) by congruence.
    assert (Hpath : Js.truthy (currentRecordingPath c) = true)
      by (rewrite P2, P1; apply recordingPath_truthy).
    destruct (sheet_stop_ok c (Sheet.ticks later c) o Hrec Hpath Ho) as (R3 & _).
    fold s' in R3. rewrite R2, R1 in R3.
    exists (Sheet.newRecording c o). split; [exact R3|].
    split; [reflexivity|].
    cbn [duration Sheet.newRecording]. subst c. now apply sheet_snapshot.
  - intros Hn c s'.
    destruct (screen_start_ok env i s0 Hp Hs) as (R1 & A1 & P1 & T1).
    fold c in R1, A1, P1, T1.
    assert (Hpath : Js.truthy (currentRecordingPath c) = true)
      by (rewrite P1; apply recordingPath_truthy).
    destruct (screen_stop_ok c c o A1 Hpath Ho) as (R3 & _).
    fold s' in R3. rewrite R1 in R3.
    exists (RecordingsScreen.newRecording c o). split; [exact R3|].
    cbn [duration RecordingsScreen.newRecording].
    unfold RecordingsScreen.durationAtStop. rewrite T1.
    cbn [Js.truthyNum]. apply Z.eqb_neq in Hn. now rewrite Hn.
Qed.

Lemma stop_duration_source_witness :
  let i := Sample.start 1700000000000 in
  let o := Sample.stop true 1700000003300 in
  let c := Sheet.ticks [1700000000541; 1700000001041]
                       (exec (Sheet.startRecording Sample.env i) init) in
  exists r,
    recordings (exec (Sheet.stopRecording c o)
                     (Sheet.ticks [1700000001541; 1700000002041] c)) = [r] /\
    duration r = "00:01".
Proof.
  intros i o c.
  destruct (stop_duration_source Sample.env i o
              [1700000000541; 1700000001041]
              [1700000001541; 1700000002041] init eq_refl eq_refl eq_refl)
    as [(r & E & D & F) _].
  exists r. split; [exact E|]. rewrite F. reflexivity.
Defined.

(* ================================================================== *)
(** ** Every event is one of the five changes *)

Lemma toString_nonempty (z : Z) : Js.toString z <> EmptyString.
Proof.
  unfold Js.toString. destruct z as [|p|p]; simpl; try discriminate.
  unfold NilZero.string_of_uint.
  pose proof (DecimalPos.Unsigned.to_uint_nonnil p) as N.
  destruct (Pos.to_uint p); simpl; congruence.
Qed.

Lemma narrowed_truthy (o : option string) :
  Js.truthy o = true -> narrowed o <> EmptyString.
Proof. destruct o as [[|a r]|]; simpl; congruence. Qed.

Lemma name_succ (n : nat) :
  "Recording " ++ Js.toString (Z.of_nat n + 1) =
  "Recording " ++ Js.toString (Z.of_nat (S n)).
Proof. now rewrite Nat2Z.inj_succ, <- Z.add_1_r. Qed.

(** Closes a goal [Change s s'] whose [s'] is computed, by the
    constructor that fits. *)
Ltac change_quiet :=
  solve [apply Quiet; [repeat split | split; reflexivity | intro; auto]].

Lemma sheet_start_change (env : Env) (i : StartInput) (s : State) :
  isRecording s = false -> Change s (exec (Sheet.startRecording env i) s).
Proof.
  intros R. run_handler.
  destruct (platformOS env), (grants i) as [[[] []]|], (startRecorderOk i);
    cbn; try change_quiet;
    destruct (timerRef s); cbn;
    (apply Started; cbn;
     [reflexivity | exact R | reflexivity | apply recordingPath_truthy
     | split; reflexivity | reflexivity]).
Qed.

Lemma screen_start_change (env : Env) (i : StartInput) (s : State) :
  isRecording s = false ->
  Change s (exec (RecordingsScreen.startRecording env i) s).
Proof.
  intros R. run_handler.
  destruct (platformOS env), (grants i) as [[[] []]|], (startRecorderOk i);
    cbn; try change_quiet;
    (apply Started; cbn;
     [reflexivity | exact R | reflexivity | apply recordingPath_truthy
     | split; reflexivity | reflexivity]).
Qed.

Lemma sheet_stop_change (o : StopInput) (s : State) :
  Change s (exec (Sheet.stopRecording s o) s).
Proof.
  run_handler.
  destruct (isRecording s) eqn:R; cbn; [|change_quiet].
  destruct (Js.truthy (currentRecordingPath s)) eqn:P; cbn; [|change_quiet].
  destruct (stopRecorderOk o); cbn; [|change_quiet].
  destruct (timerRef s); cbn;
    (apply (Stopped _ _ (Sheet.newRecording s o)); cbn;
     [ exact R | reflexivity | apply name_succ | apply toString_nonempty
     | now apply narrowed_truthy | reflexivity | reflexivity
     | split; reflexivity | reflexivity ]).
Qed.

Lemma screen_stop_change (o : StopInput) (s : State) :
  Change s (exec (RecordingsScreen.stopRecording s o) s).
Proof.
  run_handler.
  destruct (isRecording s) eqn:R; cbn; [|change_quiet].
  destruct (Js.truthy (currentRecordingPath s)) eqn:P; cbn; [|change_quiet].
  destruct (stopRecorderOk o); cbn; [|change_quiet].
  destruct (Js.truthyNum (recordingStartTime s)); cbn;
    (apply (Stopped _ _ (RecordingsScreen.newRecording s o)); cbn;
     [ exact R | reflexivity | apply name_succ | apply toString_nonempty
     | now apply narrowed_truthy | reflexivity | reflexivity
     | split; reflexivity | reflexivity ]).
Qed.

Lemma playRecording_change (item : RecordingItem) (a b : bool) (s : State) :
  In item (recordings s) -> Change s (exec (playRecording s item a b) s).
Proof.
  intros I. run_handler.
  destruct (Js.truthy (currentlyPlayingId s)),
           (Js.strictEq (currentlyPlayingId s) (id item)), a, b; cbn;
    first [ apply PlaybackOff; [repeat split | reflexivity | intro; reflexivity]
          | apply (PlaybackOn _ _ item);
            [repeat split | exact I | reflexivity | reflexivity | reflexivity] ].
Qed.

Lemma requestTogglePlayback_change (index : nat) (a b : bool) (s : State) :
  Change s (requestTogglePlayback index a b s).
Proof.
  unfold requestTogglePlayback.
  destruct (nth_error (recordings s) index) as [item|] eqn:E.
  - apply playRecording_change. eapply nth_error_In, E.
  - change_quiet.
Qed.

Lemma playBackEvent_change (e : PlayBackType.t) (s : State) :
  Change s (playBackEvent e s).
Proof.
  unfold playBackEvent. run_handler.
  destruct (playBackListener s); [|change_quiet].
  destruct (PlayBackType.currentPosition e =? PlayBackType.duration e); cbn.
  - apply PlaybackOff; [repeat split | reflexivity | intro; assumption].
  - change_quiet.
Qed.

Lemma sheet_step_change (env : Env) (s : State) (ev : Sheet.Event) :
  Change s (Sheet.step env s ev).
Proof.
  destruct ev as [i o|o|index a b|h t|e|]; cbn [Sheet.step].
  - unfold Sheet.requestToggleRecording.
    destruct (isLoading s); [change_quiet|].
    destruct (isRecording s) eqn:R.
    + apply sheet_stop_change.
    + now apply sheet_start_change.
  - unfold Sheet.pressSheetStop.
    destruct (isRecordingSheetVisible s); [|change_quiet].
    apply sheet_stop_change.
  - apply requestTogglePlayback_change.
  - unfold Sheet.tick.
    destruct (find _ (intervals s)) as [[? ?]|]; change_quiet.
  - apply playBackEvent_change.
  - unfold sheetHidden. destruct (sheetHidePending s); change_quiet.
Qed.

Lemma screen_step_change (env : Env) (s : State)
    (ev : RecordingsScreen.Event) :
  Change s (RecordingsScreen.step env s ev).
Proof.
  destruct ev as [i o|index a b|e]; cbn [RecordingsScreen.step].
  - unfold RecordingsScreen.requestToggleRecording.
    destruct (isLoading s); [change_quiet|].
    destruct (isRecording s) eqn:R.
    + apply screen_stop_change.
    + now apply screen_start_change.
  - apply requestTogglePlayback_change.
  - apply playBackEvent_change.
Qed.

(** A property kept by each of the five changes holds after every
    sequence of events, on either screen. *)
Section Reachable.

Variable P : State -> Prop.
Hypothesis P_change : forall s s', P s -> Change s s' -> P s'.

Lemma sheet_run_keeps (env : Env) (evs : list Sheet.Event) (s : State) :
  P s -> P (Sheet.run env evs s).
Proof.
  revert s. induction evs as [|ev evs IH]; intros s H; [exact H|].
  apply IH. eapply P_change; [exact H | apply sheet_step_change].
Qed.

Lemma screen_run_keeps (env : Env) (evs : list RecordingsScreen.Event)
    (s : State) :
  P s -> P (RecordingsScreen.run env evs s).
Proof.
  revert s. induction evs as [|ev evs IH]; intros s H; [exact H|].
  apply IH. eapply P_change; [exact H | apply screen_step_change].
Qed.

End Reachable.

(* ================================================================== *)
(** ** Invariants of the reachable states *)

Lemma loading_change (s s' : State) :
  isLoading s = false -> Change s s' -> isLoading s' = false.
Proof. intros L [? ? H|? ? ? ? ? H|r ? ? ? ? ? ? ? ? H|? ? H|item ? ? ? ? H]; auto. Qed.

Lemma recording_inv_change (s s' : State) :
  recording_inv s -> Change s s' -> recording_inv s'.
Proof.
  unfold recording_inv.
  intros I [(_ & R & P) _ _|_ _ R P _ _|r _ _ _ _ _ R P _ _
           |(_ & R & P) _ _|item (_ & R & P) _ _ _ _];
    rewrite R; rewrite ?P; first [assumption | reflexivity].
Qed.

Lemma records_inv_change (s s' : State) :
  records_inv s -> Change s s' -> records_inv s'.
Proof.
  unfold records_inv.
  intros I [(R & _) _ _|R _ _ _ _ _|r _ R N Hid Hp _ _ _ _
           |(R & _) _ _|item (R & _) _ _ _ _]; rewrite R; try exact I.
  intros k x E.
  destruct (Nat.lt_ge_cases k (List.length (recordings s))) as [Lt|Ge].
  - rewrite nth_error_app1 in E by exact Lt. now apply I.
  - rewrite nth_error_app2 in E by exact Ge.
    destruct (k - List.length (recordings s))%nat as [|m] eqn:D.
    + cbn in E. injection E as <-.
      replace k with (List.length (recordings s)) by lia. auto.
    + cbn in E. destruct m; discriminate E.
Qed.

Lemma recording_inv_init : recording_inv init.
Proof. reflexivity. Qed.

Lemma records_inv_init : records_inv init.
Proof. intros [|k] r E; discriminate E. Qed.

(** X4. After every sequence of events [isLoading] is false again on
    either screen: no handler leaves the record button disabled. *)
Theorem loading_settles (env : Env) (evs : list Sheet.Event)
    (evs' : list RecordingsScreen.Event) :
  isLoading (Sheet.run env evs init) = false /\
  isLoading (RecordingsScreen.run env evs' init) = false.
Proof.
  split.
  - apply (sheet_run_keeps (fun s => isLoading s = false) loading_change).
    reflexivity.
  - apply (screen_run_keeps (fun s => isLoading s = false) loading_change).
    reflexivity.
Qed.

(** X5. In every state either screen reaches, [isRecording] and
    [currentRecordingPath] agree: while recording the path is a non-empty
    string, otherwise it is null. So the second half of the guard of
    [stopRecording] never fires on its own. *)
Theorem recording_has_path (env : Env) (evs : list Sheet.Event)
    (evs' : list RecordingsScreen.Event) :
  (let s := Sheet.run env evs init in
   if isRecording s then Js.truthy (currentRecordingPath s) = true
   else currentRecordingPath s = None) /\
  (let s := RecordingsScreen.run env evs' init in
   if isRecording s then Js.truthy (currentRecordingPath s) = true
   else currentRecordingPath s = None).
Proof.
  split.
  - apply (sheet_run_keeps recording_inv recording_inv_change),
      recording_inv_init.
  - apply (screen_run_keeps recording_inv recording_inv_change),
      recording_inv_init.
Qed.


(** X7. In every state either screen reaches, the record at index [k] of
    the list is named ["Recording k+1"], and its id and its path are
    non-empty strings. *)
Theorem records_named_in_order (env : Env) (evs : list Sheet.Event)
    (evs' : list RecordingsScreen.Event) (k : nat) (r : RecordingItem) :
  (nth_error (recordings (Sheet.run env evs init)) k = Some r ->
   name r = "Recording " ++ Js.toString (Z.of_nat (S k)) /\
   id r <> EmptyString /\ path r <> EmptyString) /\
  (nth_error (recordings (RecordingsScreen.run env evs' init)) k = Some r ->
   name r = "Recording " ++ Js.toString (Z.of_nat (S k)) /\
   id r <> EmptyString /\ path r <> EmptyString).
Proof.
  split; intros E.
  - exact (sheet_run_keeps records_inv records_inv_change env evs init
             records_inv_init k r E).
  - exact (screen_run_keeps records_inv records_inv_change env evs' init
             records_inv_init k r E).
Qed.

Lemma records_named_in_order_witness :
  match nth_error (recordings (Sheet.run Sample.env
                      Sample.record_then_play_then_record init)) 0 with
  | Some r => name r = "Recording 1"
  | None => False
  end.
Proof.
  destruct (nth_error (recordings (Sheet.run Sample.env
                         Sample.record_then_play_then_record init)) 0)
    as [r|] eqn:E.
  - exact (proj1 (proj1 (records_named_in_order Sample.env
                    Sample.record_then_play_then_record [] 0 r) E)).
  - vm_compute in E. discriminate E.
Defined.

(** X10. The callback of a timer that is not the current one changes
    nothing: in every reachable state a tick that arrives while no
    recording is active, or for a handle other than the one in
    [timerRef], leaves the state as it is. *)
Theorem stale_tick_is_ignored (env : Env) (evs : list Sheet.Event)
    (h : positive) (t : Z) :
  let s := Sheet.run env evs init in
  isRecording s = false \/ timerRef s <> Some h ->
  Sheet.tick h t s = s.
Proof.
  intros s H.
  pose proof (timer_inv_run env evs init timer_inv_init) as I.
  fold s in I. unfold timer_inv in I. unfold Sheet.tick.
  destruct (isRecording s).
  - destruct I as (h0 & st & T & Iv). rewrite Iv. cbn [find fst].
    destruct (Pos.eqb_spec h0 h) as [->|]; [|reflexivity].
    destruct H as [H|H]; [discriminate H | congruence].
  - destruct I as (_ & Iv). now rewrite Iv.
Qed.

Lemma stale_tick_is_ignored_witness :
  let s := Sheet.run Sample.env Sample.record_then_play_then_record init in
  Sheet.tick 1%positive 1700000020000 s = s.
Proof.
  intros s.
  apply (stale_tick_is_ignored Sample.env
           Sample.record_then_play_then_record 1%positive 1700000020000).
  right. vm_compute. discriminate.
Defined.

(* ================================================================== *)
(** ** Failure paths of the handlers *)

(** X1. When the permission is not granted, [startRecording] does
    nothing but ask: on either screen every hook, the timers and the
    listener are as before, the engine is not called, and the only
    effects are the request and the alert (or, when the request itself
    fails, the console message). *)
Theorem startRecording_denied (env : Env) (i : StartInput) (s : State) :
  permitted env (grants i) = false ->
  let s' := exec (Sheet.startRecording env i) s in
  exec (RecordingsScreen.startRecording env i) s = s' /\
  s' = setTrace (trace s') s /\
  emitted s s' =
    RequestMultiple ::
    match grants i with
    | Some _ => [Alert "Permissions Required"
                       "Audio recording permissions are required"]
    | None => [ConsoleError "Permission request error:"]
    end.
Proof.
  unfold permitted. run_handler.
  destruct (platformOS env); [discriminate|].
  destruct (grants i) as [[[] []]|]; cbn; intros H;
    try discriminate H; repeat split; trace_shape.
Qed.

Lemma startRecording_denied_witness :
  let env := mkEnv Android "/var/documents" "/storage/files" in
  let i := mkStartInput (Some (GRANTED, DENIED)) 1700000000000 true
                        1700000000040 1700000000041 in
  isRecording (exec (Sheet.startRecording env i) init) = false /\
  emitted init (exec (Sheet.startRecording env i) init) =
    [RequestMultiple;
     Alert "Permissions Required" "Audio recording permissions are required"].
Proof.
  intros env i.
  destruct (startRecording_denied env i init eq_refl) as (_ & E & T).
  split; [rewrite E; reflexivity | exact T].
Defined.

(** X2. When the engine fails to start the recorder, on either screen
    the session stays Idle: beyond the trace only [isLoading] is written
    (to false), so no path, start time, timer or sheet is set, and the
    user sees the alert [Failed to start recording]. *)
Theorem startRecording_engine_failure (env : Env) (i : StartInput)
    (s : State) :
  permitted env (grants i) = true -> startRecorderOk i = false ->
  let s' := exec (Sheet.startRecording env i) s in
  exec (RecordingsScreen.startRecording env i) s = s' /\
  s' = setIsLoading false (setTrace (trace s') s) /\
  emitted s s' =
    (match platformOS env with
     | Android => [RequestMultiple]
     | Ios => []
     end ++
     [ConsoleLog "Recording to path:";
      StartRecorder (recordingPathOf env (timestamp i));
      Alert "Error" "Failed to start recording";
      ConsoleError "Recording error:"])%list.
Proof.
  unfold permitted. run_handler. intros H ->.
  destruct (platformOS env); cbn.
  - repeat split. trace_shape.
  - destruct (grants i) as [[[] []]|]; try discriminate H; cbn.
    repeat split. trace_shape.
Qed.

Lemma startRecording_engine_failure_witness :
  let i := mkStartInput None 1700000000000 false 1700000000040
                        1700000000041 in
  let s' := exec (Sheet.startRecording Sample.env i) init in
  isRecording s' = false /\ intervals s' = [] /\
  existsb isAlert (emitted init s') = true.
Proof.
  intros i s'.
  destruct (startRecording_engine_failure Sample.env i init eq_refl eq_refl)
    as (_ & E & T).
  fold s' in E, T. rewrite T. split; [rewrite E; reflexivity|].
  split; [rewrite E; reflexivity | reflexivity].
Defined.

(** X3. When the engine fails to stop the recorder, on either screen the
    recording stays active: beyond the trace only [isLoading] is written
    (to false), so [isRecording], the path, the start time, the timer
    and the list are as before and no record is appended; the user sees
    the alert [Failed to stop recording] and can press stop again. *)
Theorem stopRecording_engine_failure (c s : State) (o : StopInput) :
  isRecording c = true -> Js.truthy (currentRecordingPath c) = true ->
  stopRecorderOk o = false ->
  let s' := exec (Sheet.stopRecording c o) s in
  exec (RecordingsScreen.stopRecording c o) s = s' /\
  s' = setIsLoading false (setTrace (trace s') s) /\
  emitted s s' = [StopRecorder; Alert "Error" "Failed to stop recording";
                  ConsoleError "Stop recording error:"].
Proof.
  intros R P F. run_handler. rewrite R, P, F. cbn.
  repeat split. trace_shape.
Qed.

Lemma stopRecording_engine_failure_witness :
  let c := exec (Sheet.startRecording Sample.env
                   (Sample.start 1700000000000)) init in
  let s' := exec (Sheet.stopRecording c (Sample.stop false 1700000004000)) c in
  isRecording s' = true /\ recordings s' = [] /\
  existsb isAlert (emitted c s') = true.
Proof.
  intros c s'.
  destruct (stopRecording_engine_failure c c (Sample.stop false 1700000004000)
              eq_refl eq_refl eq_refl) as (_ & E & T).
  fold s' in E, T. rewrite T. split; [rewrite E; reflexivity|].
  split; [rewrite E; reflexivity | reflexivity].
Defined.

Lemma playRecording_stop_rejects_witness :
  let a := mkItem "1700000000000" "Recording 1" "00:03" "/d/a.m4a" "x" (Some false) in
  let b := mkItem "1700000009000" "Recording 2" "00:07" "/d/b.m4a" "y" (Some false) in
  let s := setPlayBackListener true
             (setCurrentlyPlayingId (Some (id a)) (setRecordings [a; b] init)) in
  currentlyPlayingId (exec (playRecording s b false true) s) = None /\
  playBackListener (exec (playRecording s b false true) s) = true.
Proof.
  intros a b s.
  destruct (playRecording_stop_rejects s (id a) b true eq_refl)
    as (_ & P & L); [discriminate|].
  split; [exact P | exact L].
Defined.

(** X12. From Idle, when the engine fails to start the player, the state
    is Idle again: beyond the trace only [currentlyPlayingId] (null) and
    [isLoading] (false) are written, no listener is registered, and the
    user sees the alert [Failed to play recording]. *)
Theorem playRecording_start_rejects (s : State) (item : RecordingItem)
    (stopPlayerOk : bool) :
  Js.truthy (currentlyPlayingId s) = false ->
  let s' := exec (playRecording s item stopPlayerOk false) s in
  s' = setCurrentlyPlayingId None (setIsLoading false (setTrace (trace s') s)) /\
  emitted s s' = [StartPlayer (path item);
                  Alert "Error" "Failed to play recording";
                  ConsoleError "Play error:"].
Proof.
  intros H. run_handler. rewrite H. cbn. split; [reflexivity | trace_shape].
Qed.

Lemma playRecording_start_rejects_witness :
  let a := mkItem "1700000000000" "Recording 1" "00:03" "/d/a.m4a" "x" (Some false) in
  let s := setRecordings [a] init in
  currentlyPlayingId (exec (playRecording s a true false) s) = None /\
  playBackListener (exec (playRecording s a true false) s) = false.
Proof.
  intros a s.
  destruct (playRecording_start_rejects s a true eq_refl) as (E & _).
  rewrite E. split; reflexivity.
Defined.

(* ================================================================== *)
(** ** Pressing stop twice *)

(** X13. Once a stop has succeeded, a further press on stop changes
    nothing, on either screen: no second record, no engine call, no
    alert. *)
Theorem second_stop_is_noop (s : State) (o o' : StopInput) :
  isRecording s = true -> Js.truthy (currentRecordingPath s) = true ->
  stopRecorderOk o = true ->
  (let s1 := exec (Sheet.stopRecording s o) s in
   exec (Sheet.stopRecording s1 o') s1 = s1) /\
  (let s1 := exec (RecordingsScreen.stopRecording s o) s in
   exec (RecordingsScreen.stopRecording s1 o') s1 = s1).
Proof.
  intros R P O. split; intros s1.
  - destruct (sheet_stop_ok s s o R P O) as (_ & R1 & _). fold s1 in R1.
    unfold exec, Sheet.stopRecording. now rewrite R1.
  - destruct (screen_stop_ok s s o R P O) as (_ & R1). fold s1 in R1.
    unfold exec, RecordingsScreen.stopRecording. now rewrite R1.
Qed.

Lemma second_stop_is_noop_witness :
  let c := exec (Sheet.startRecording Sample.env
                   (Sample.start 1700000000000)) init in
  let s1 := exec (Sheet.stopRecording c (Sample.stop true 1700000004000)) c in
  exec (Sheet.stopRecording s1 (Sample.stop true 1700000004300)) s1 = s1.
Proof.
  intros c s1. subst s1.
  exact (proj1 (second_stop_is_noop c (Sample.stop true 1700000004000)
                  (Sample.stop true 1700000004300) eq_refl eq_refl eq_refl)).
Defined.

(** X14. Two stops invoked on the same render (the second press arrives
    before the screen has rendered the first stop) leave one new record,
    not two: the handler publishes the list of its render extended by
    its own record, so the later call replaces what the earlier one
    published. This holds on either screen. *)
Theorem overlapping_stops_one_record (s : State) (o o' : StopInput) :
  isRecording s = true -> Js.truthy (currentRecordingPath s) = true ->
  stopRecorderOk o' = true ->
  (let s1 := exec (Sheet.stopRecording s o) s in
   let s2 := exec (Sheet.stopRecording s o') s1 in
   recordings s2 = (recordings s ++ [Sheet.newRecording s o'])%list /\
   isRecording s2 = false) /\
  (let s1 := exec (RecordingsScreen.stopRecording s o) s in
   let s2 := exec (RecordingsScreen.stopRecording s o') s1 in
   recordings s2 = (recordings s ++ [RecordingsScreen.newRecording s o'])%list /\
   isRecording s2 = false).
Proof.
  intros R P O. split; intros s1 s2.
  - destruct (sheet_stop_ok s s1 o' R P O) as (A & B & _). now split.
  - destruct (screen_stop_ok s s1 o' R P O) as (A & B). now split.
Qed.

Lemma overlapping_stops_one_record_witness :
  let c := exec (Sheet.startRecording Sample.env
                   (Sample.start 1700000000000)) init in
  let s1 := exec (Sheet.stopRecording c (Sample.stop true 1700000004000)) c in
  let s2 := exec (Sheet.stopRecording c (Sample.stop true 1700000004300)) s1 in
  List.length (recordings s2) = 1%nat.
Proof.
  intros c s1 s2.
  destruct (overlapping_stops_one_record c (Sample.stop true 1700000004000)
              (Sample.stop true 1700000004300) eq_refl eq_refl eq_refl)
    as [(E & _) _].
  fold s1 s2 in E. rewrite E. reflexivity.
Defined.

(* ================================================================== *)
(** ** More on formatTime and on the texts built from numbers *)

(** X15. Two non-negative durations below 2^53 are printed alike
    exactly when they have the same number of whole seconds: there
    [formatTime] drops the milliseconds and nothing else. *)
Theorem formatTime_same_second (a b : Z) :
  0 <= a < 2 ^ 53 -> 0 <= b < 2 ^ 53 ->
  (formatTime a = formatTime b <-> a / 1000 = b / 1000).
Proof.
  intros Ha Hb. split.
  - intros E.
    pose proof (formatTime_readback a Ha) as Pa.
    pose proof (formatTime_readback b Hb) as Pb.
    rewrite E, Pb in Pa. injection Pa as Em Es.
    pose proof (Z.div_mod (a / 1000) 60). pose proof (Z.div_mod (b / 1000) 60).
    lia.
  - intros E. rewrite (formatTime_safe a Ha), (formatTime_safe b Hb).
    rewrite E. reflexivity.
Qed.

Lemma formatTime_same_second_witness :
  formatTime 61000 = formatTime 61999 /\ formatTime 61999 <> formatTime 62000.
Proof.
  assert (B : forall z, 0 <= z < 100000 -> 0 <= z < 2 ^ 53).
  { intros z Hz. assert (100000 < 2 ^ 53) by reflexivity. lia. }
  split.
  - apply (formatTime_same_second 61000 61999);
      [apply B; lia | apply B; lia | reflexivity].
  - intros E.
    apply (formatTime_same_second 61999 62000) in E;
      [discriminate E | apply B; lia | apply B; lia].
Defined.

Lemma toString_negative (z : Z) :
  z < 0 -> exists a r, Js.toString z = String "-" (String a r).
Proof.
  intros H. destruct z as [|p|p]; try lia.
  unfold Js.toString. cbn [Z.to_int NilZero.string_of_int].
  unfold NilZero.string_of_uint.
  pose proof (DecimalPos.Unsigned.to_uint_nonnil p) as N.
  destruct (Pos.to_uint p); try congruence; cbn; eauto.
Qed.

Lemma matches_mmss_minus (r : string) : matches_mmss (String "-" r) = false.
Proof.
  unfold matches_mmss. cbn [split_colon].
  change (Ascii.eqb "-" ":") with false. cbv iota.
  destruct (split_colon r) as [[a b]|]; reflexivity.
Qed.

Lemma exponential_nonempty (v : Z) : Js.exponential v <> EmptyString.
Proof.
  unfold Js.exponential.
  destruct (Js.toString (Js.stripZeros (Z.to_nat (Js.digits v)) v))
    as [|c [|c' r]]; discriminate.
Qed.

Lemma numberToString_negative (z : Z) :
  z < 0 -> exists a r, Js.numberToString z = String "-" (String a r).
Proof.
  intros H. unfold Js.numberToString.
  destruct (Z.abs z <? 2 ^ 53); [now apply toString_negative|].
  destruct (Z.ltb_spec z 0); [|lia].
  unfold Js.bigToString.
  destruct (Js.digits _ <=? 21).
  - pose proof (toString_nonempty
                  (Js.shortest (- z) (map Z.of_nat (seq 1 17)))) as N.
    destruct (Js.toString _) as [|a r]; [congruence | eauto].
  - pose proof (exponential_nonempty
                  (Js.shortest (- z) (map Z.of_nat (seq 1 17)))) as N.
    destruct (Js.exponential _) as [|a r]; [congruence | eauto].
Qed.

(** X16. A negative duration (the clock stepped back behind the start) is
    not printed as minutes and seconds: the text begins with a minus sign
    and does not match [^\d{2,}:\d{2}$]. *)
Theorem formatTime_negative (ms : Z) :
  ms < 0 ->
  matches_mmss (formatTime ms) = false /\
  exists rest, formatTime ms = String "-" rest.
Proof.
  intros H.
  assert (T : Js.floorDiv ms 1000 < 0) by (apply floorDiv_negative; lia).
  assert (M : Js.floorDiv (Js.floorDiv ms 1000) 60 < 0)
    by (apply floorDiv_negative; lia).
  destruct (numberToString_negative _ M) as (a & r & E).
  assert (F : formatTime ms =
              String "-" (String a r ++ ":" ++
                Js.padStart 2 "0"
                  (Js.numberToString (Z.rem (Js.floorDiv ms 1000) 60)))).
  { unfold formatTime. cbv zeta. rewrite E. reflexivity. }
  split; [rewrite F; apply matches_mmss_minus | eauto].
Qed.

Lemma formatTime_negative_witness :
  matches_mmss (formatTime (-1)) = false.
Proof. apply (formatTime_negative (-1)). lia. Defined.

Lemma append_cancel_l (a b c : string) : a ++ b = a ++ c -> b = c.
Proof. induction a as [|x a IH]; cbn; intros E; [exact E|]. injection E. auto. Qed.

Lemma length_append (a b : string) :
  String.length (a ++ b) = (String.length a + String.length b)%nat.
Proof. induction a as [|x a IH]; cbn; [reflexivity|]. now rewrite IH. Qed.

Lemma append_cancel_r (a b c : string) : a ++ c = b ++ c -> a = b.
Proof.
  revert b. induction a as [|x a IH]; intros [|y b] E; cbn in E.
  - reflexivity.
  - apply (f_equal String.length) in E. cbn in E. rewrite length_append in E. lia.
  - apply (f_equal String.length) in E. cbn in E. rewrite length_append in E. lia.
  - injection E as -> E. f_equal. now apply IH.
Qed.

Lemma toString_inj (a b : Z) : Js.toString a = Js.toString b -> a = b.
Proof.
  unfold Js.toString. intros E.
  assert (N : forall z, Z.to_int z <> Pos Nil /\ Z.to_int z <> Neg Nil).
  { intros [|p|p]; cbn; split; try discriminate;
      intros [= F]; exact (DecimalPos.Unsigned.to_uint_nonnil p F). }
  apply DecimalZ.to_int_inj.
  assert (S : Some (Z.to_int a) = Some (Z.to_int b)).
  { rewrite <- (NilZero.isi (Z.to_int a)), <- (NilZero.isi (Z.to_int b));
      try apply N. now rewrite E. }
  now injection S.
Qed.

(** X17. Recordings started at different timestamps are written to
    different files, and records stopped at different times get different
    ids (the keys of the list rows), on either screen. *)
Theorem paths_and_ids_unique (env : Env) (t t' : Z) (c c' : State)
    (o o' : StopInput) :
  (recordingPathOf env t = recordingPathOf env t' -> t = t') /\
  (id (Sheet.newRecording c o) = id (Sheet.newRecording c' o') ->
   now o = now o') /\
  (id (RecordingsScreen.newRecording c o) =
   id (RecordingsScreen.newRecording c' o') -> now o = now o').
Proof.
  split; [|split; cbn; apply toString_inj].
  unfold recordingPathOf. intros E.
  apply append_cancel_l, append_cancel_l, append_cancel_r in E.
  now apply toString_inj.
Qed.

Lemma paths_and_ids_unique_witness :
  recordingPathOf Sample.env 1700000000000 <>
  recordingPathOf Sample.env 1700000000001.
Proof.
  intros E.
  apply (paths_and_ids_unique Sample.env 1700000000000 1700000000001
           init init (Sample.stop true 0) (Sample.stop true 0)) in E.
  discriminate E.
Defined.

(* ================================================================== *)
(** ** The stop icon of the rows *)

Lemma filter_other_id (x : string) (l : list RecordingItem) :
  ~ In x (map id l) ->
  filter (fun y => String.eqb x (id y)) l = [].
Proof.
  induction l as [|y l IH]; cbn; intros N; [reflexivity|].
  destruct (String.eqb_spec x (id y)) as [->|_].
  - exfalso. apply N. now left.
  - apply IH. intros I. apply N. now right.
Qed.

Lemma filter_one_id (x : string) (l : list RecordingItem) :
  NoDup (map id l) -> (exists r, In r l /\ id r = x) ->
  List.length (filter (fun y => String.eqb x (id y)) l) = 1%nat.
Proof.
  induction l as [|y l IH]; cbn; intros D (r & I & E); [contradiction|].
  inversion D as [|? ? N D']; subst.
  destruct (String.eqb_spec (id r) (id y)) as [Q|Q].
  - cbn. rewrite Q. now rewrite filter_other_id.
  - apply IH; [exact D'|]. exists r. split; [|reflexivity].
    destruct I as [<-|I]; [congruence | exact I].
Qed.

(** X18. In any state whose listed records have pairwise different ids,
    at most one row shows the stop icon: none when [currentlyPlayingId]
    is null, and exactly one when it is the id of a listed record. *)
Theorem one_stop_icon (s : State) :
  NoDup (map id (recordings s)) ->
  (List.length (filter (showsStop s) (recordings s)) <= 1)%nat /\
  (currentlyPlayingId s = None ->
   List.length (filter (showsStop s) (recordings s)) = 0%nat) /\
  (forall r, In r (recordings s) -> currentlyPlayingId s = Some (id r) ->
   List.length (filter (showsStop s) (recordings s)) = 1%nat).
Proof.
  intros D. unfold showsStop, playButtonIcon.
  destruct (currentlyPlayingId s) as [x|]; cbn [Js.strictEq].
  - assert (F : filter (fun item =>
                   match (if String.eqb x (id item) then StopIcon else PlayIcon)
                   with StopIcon => true | PlayIcon => false end)
                  (recordings s) =
                filter (fun y => String.eqb x (id y)) (recordings s)).
    { apply filter_ext. intros y. now destruct (String.eqb x (id y)). }
    rewrite F. split; [|split; [discriminate|]].
    + destruct (in_dec string_dec x (map id (recordings s))) as [I|N].
      * apply in_map_iff in I. destruct I as (r & Er & Ir).
        rewrite (filter_one_id x (recordings s) D); [lia|eauto].
      * rewrite (filter_other_id x (recordings s) N). cbn. lia.
    + intros r Ir [= ->]. apply filter_one_id; eauto.
  - assert (Z0 : List.length (filter (fun _ : RecordingItem => false)
                                (recordings s)) = 0%nat).
    { clear D. induction (recordings s) as [|y l IH]; [reflexivity | exact IH]. }
    split; [cbv beta; lia|]. split; [intros _; exact Z0 | discriminate].
Qed.

Lemma one_stop_icon_witness :
  let s := Sheet.run Sample.env Sample.record_then_play_then_record init in
  List.length (filter (showsStop s) (recordings s)) = 1%nat.
Proof.
  intros s.
  destruct (one_stop_icon s) as (_ & _ & H).
  - vm_compute. repeat constructor. intros [].
  - destruct (nth_error (recordings s) 0) as [r|] eqn:E.
    + apply (H r); [eapply nth_error_In, E|].
      vm_compute in E. injection E as <-. vm_compute. reflexivity.
    + vm_compute in E. discriminate E.
Defined.
